(** * breezy/livereload: a shallow embedding of [livereload.go]

    The development is organised like the Go file:

    - [strings]     : the functions of Go's [strings] package the file calls
                      ([Contains], [HasPrefix], [Index], [Replace], [ToLower]),
                      on byte strings;
    - [http]        : [http.Header] (a map from keys to value lists with the
                      canonicalising [Get]/[Set]/[Add]/[Del] accessors), the
                      [ResponseWriter] interface, requests and handlers;
    - [websocket]   : the connection of [gorilla/websocket], as the calls
                      made on it and the results they get;
    - [livereload]  : [responseWriter], [isHTMLResponse], [isDevelopmentMode],
                      [injectScript], [handleLiveReload] and [Middleware].

    The properties follow the definitions: facts on strings and headers,
    then the script injector, the classifiers, the capturer, the dispatcher
    and the notification endpoint.

    Go strings and byte slices are sequences of bytes; Rocq's [string] is a
    list of 8-bit [ascii] characters, so the two coincide. Status codes
    and lengths, Go [int]s, are in [Z]. *)

From Stdlib Require Import ZArith Ascii String Bool Lia.
From stdpp Require Import base option list strings gmap fin_maps.

(* ===================================================================== *)
(** ** Go's [strings] package *)
(* ===================================================================== *)

Module strings.

#[local] Arguments String.append !_ _ / : simpl nomatch.

(** [len(s)] is [String.length s]; [s + t] is [s +:+ t]. *)

(** [s[n:]] for [n <= len(s)]. *)
Fixpoint slice_from (n : nat) (s : string) : string :=
  match n, s with
  | 0, _ => s
  | S _, EmptyString => EmptyString
  | S m, String _ t => slice_from m t
  end.

(** [s[:n]] for [n <= len(s)]. *)
Fixpoint slice_to (n : nat) (s : string) : string :=
  match n, s with
  | 0, _ => EmptyString
  | S _, EmptyString => EmptyString
  | S m, String c t => String c (slice_to m t)
  end.

(** [strings.HasPrefix(s, prefix)]: [len(s) >= len(prefix) &&
    s[:len(prefix)] == prefix]. *)
Fixpoint HasPrefix (s prefix : string) {struct prefix} : bool :=
  match prefix, s with
  | EmptyString, _ => true
  | String _ _, EmptyString => false
  | String a p, String b t => if Ascii.eqb a b then HasPrefix t p else false
  end.

(** [strings.Index(s, substr)]: the index of the first instance of [substr]
    in [s]; Go's [-1] is [None]. *)
Fixpoint Index (s substr : string) : option nat :=
  if HasPrefix s substr then Some 0
  else match s with
       | EmptyString => None
       | String _ t => S <$> Index t substr
       end.

(** [strings.Contains(s, substr)] is [Index(s, substr) >= 0]. *)
Definition Contains (s substr : string) : bool :=
  match Index s substr with Some _ => true | None => false end.

(** The loop of [strings.Replace]: at most [n] replacements, each at the
    next non-overlapping instance of [old]. *)
Fixpoint replaceN (n : nat) (s old new : string) : string :=
  match n with
  | 0 => s
  | S n' =>
      match Index s old with
      | None => s
      | Some j =>
          slice_to j s +:+ new
            +:+ replaceN n' (slice_from (j + String.length old) s) old new
      end
  end.

(** [strings.Replace(s, old, new, n)] for [n >= 0] ([livereload.go] passes
    [n = 1]) and a non-empty [old] (with an empty [old], Go steps over one
    UTF-8 sequence per replacement, which agrees with this only for
    [n <= 1]). *)
Definition Replace (s old new : string) (n : nat) : string :=
  if String.eqb old new then s else replaceN n s old new.

(** Lower-casing of one byte: ['A'..'Z'] go to ['a'..'z']. *)
Definition lowerByte (c : ascii) : ascii :=
  let n := nat_of_ascii c in
  if (65 <=? n) && (n <=? 90) then ascii_of_nat (n + 32) else c.

Definition upperByte (c : ascii) : ascii :=
  let n := nat_of_ascii c in
  if (97 <=? n) && (n <=? 122) then ascii_of_nat (n - 32) else c.

(** [strings.ToLower(s)]. Go lower-cases the bytes ['A'..'Z'] of an ASCII
    string; a string with bytes above 127 goes through [unicode.ToLower]
    rune by rune, which leaves every ASCII byte that is not an upper-case
    letter in place and produces, for a rune outside ASCII, either bytes
    above 127 or one of the letters [k] (from U+212A) and [i] (from U+0130).
    The embedding is the byte-wise map: it agrees with Go on ASCII strings,
    and on every string as far as the occurrence of an ASCII pattern without
    [k] and [i] is concerned, which is all [isHTMLResponse] asks of it. *)
Fixpoint ToLower (s : string) : string :=
  match s with
  | EmptyString => EmptyString
  | String c t => String (lowerByte c) (ToLower t)
  end.

(** *** Declarative readings, used in the statements *)

(** [sub] occurs in [s]. *)
Definition occurs (sub s : string) : Prop :=
  ∃ pre post, s = pre +:+ sub +:+ post.

(** [s] begins with [p]. *)
Definition begins_with (p s : string) : Prop :=
  ∃ post, s = p +:+ post.

(** [pre] and [post] cut [s] at the first (leftmost) instance of [sub]. *)
Definition first_occurrence (sub s pre post : string) : Prop :=
  s = pre +:+ sub +:+ post ∧
  ∀ pre' post', s = pre' +:+ sub +:+ post' →
                String.length pre ≤ String.length pre'.

End strings.

(* ===================================================================== *)
(** ** Go's [net/http]: headers, response writers, handlers *)
(* ===================================================================== *)

Module http.

Definition StatusOK : Z := 200.
Definition StatusNotFound : Z := 404.

(** Go's [error]: [nil] is [None]. *)
Definition error : Type := option string.

(** *** [http.Header]

    A [map[string][]string]. Its accessors canonicalise the key they are
    given ([textproto.CanonicalMIMEHeaderKey]); the map itself can hold any
    key, since a handler may also assign to it directly.

    The value slices are lists here. That is what they are as long as no
    two keys hold slices over one backing array, which is the case of every
    map filled through [Set], [Add] and [Del] from an empty one ([Set]
    makes a slice of its own, [Add] appends to the slice of its key). A
    handler that assigns slices to the map itself can make two keys share
    an array, and an [Add] on one of them may then write into the other:
    the statements on [Add] are made for maps filled through the
    accessors. *)
Abbreviation header := (gmap string (list string)).

(** The token bytes of a header field name. *)
Definition validHeaderFieldByte (c : ascii) : bool :=
  let n := nat_of_ascii c in
  ((48 <=? n) && (n <=? 57)) || ((65 <=? n) && (n <=? 90))
  || ((97 <=? n) && (n <=? 122))
  || bool_decide (n ∈ [33; 35; 36; 37; 38; 39; 42; 43; 45; 46; 94; 95; 96; 124; 126]).

Fixpoint validHeaderField (s : string) : bool :=
  match s with
  | EmptyString => true
  | String c t => validHeaderFieldByte c && validHeaderField t
  end.

(** Upper case for the first letter and for a letter after a dash, lower
    case for the others. *)
Fixpoint canonicalize (upper : bool) (s : string) : string :=
  match s with
  | EmptyString => EmptyString
  | String c t =>
      let c' := if upper then strings.upperByte c else strings.lowerByte c in
      String c' (canonicalize (Ascii.eqb c' "-") t)
  end.

(** [textproto.CanonicalMIMEHeaderKey]: a key with a byte that is not a
    token byte is returned as it is. *)
Definition CanonicalMIMEHeaderKey (s : string) : string :=
  if validHeaderField s then canonicalize true s else s.

(** [h.Get(key)]: the first value of the key, or [""]. *)
Definition HeaderGet (h : header) (key : string) : string :=
  match h !! CanonicalMIMEHeaderKey key with
  | Some (v :: _) => v
  | _ => ""
  end.

(** [h.Set(key, value)]. *)
Definition HeaderSet (key value : string) (h : header) : header :=
  <[CanonicalMIMEHeaderKey key := [value]]> h.

(** [h.Add(key, value)]: [h[key] = append(h[key], value)], on a slice that
    shares its array with no other key (see above). *)
Definition HeaderAdd (key value : string) (h : header) : header :=
  let key := CanonicalMIMEHeaderKey key in
  <[key := default [] (h !! key) ++ [value]]> h.



(** *** [http.ResponseWriter]

    The interface, over a type [W] of writer states. [Header()] returns a
    map that the caller mutates in place; [withHeader f] is such a mutation,
    seen as a change of the writer that owns the map. *)
Class ResponseWriter (W : Type) := {
  Header : W → header;
  withHeader : (header → header) → W → W;
  Write : string → W → W * (Z * error);
  WriteHeader : Z → W → W;
}.

(** *** Requests and handlers *)

(** The two fields of [*http.Request] that matter: [r.Host], which
    [livereload.go] reads, and [r.URL.Path], on which the [ServeMux] works.
    The requests are those with a method other than [CONNECT] and a request
    URI other than ["*"], which the mux treats apart. *)
Record Request := { Host : string; Path : string }.

(** *** The path canonicalisation of [http.ServeMux]

    The mux cleans the path of a request ([cleanPath], over [path.Clean])
    and, when the cleaned path is not the path received, answers by itself
    with a redirect to the cleaned path: no registered handler is called. *)

(** The elements of a path, between slashes; [cur] is the element being
    read. *)
Fixpoint pathElements (s cur : string) : list string :=
  match s with
  | EmptyString => [cur]
  | String c t =>
      if Ascii.eqb c "/" then cur :: pathElements t ""
      else pathElements t (cur +:+ String c "")
  end.

(** One element of a rooted path, on the elements kept so far: empty and
    ["."] are dropped, [".."] drops the last element kept (none at the
    root). *)
Definition cleanElement (kept : list string) (element : string) : list string :=
  if String.eqb element "" || String.eqb element "." then kept
  else if String.eqb element ".." then removelast kept
  else kept ++ [element].

Fixpoint joinElements (elements : list string) : string :=
  match elements with
  | [] => ""
  | [element] => element
  | element :: elements => element +:+ "/" +:+ joinElements elements
  end.

(** [path.Clean(p)] for a path [p] that begins with a slash. *)
Definition Clean (p : string) : string :=
  "/" +:+ joinElements (foldl cleanElement [] (pathElements p "")).

Fixpoint endsWithSlash (p : string) : bool :=
  match p with
  | EmptyString => false
  | String c EmptyString => Ascii.eqb c "/"
  | String _ t => endsWithSlash t
  end.

(** [cleanPath(p)] of [net/http]: the path made rooted and cleaned, with
    the trailing slash put back. *)
Definition cleanPath (p : string) : string :=
  match p with
  | EmptyString => "/"
  | String c _ =>
      let p := if Ascii.eqb c "/" then p else "/" +:+ p in
      let np := Clean p in
      if endsWithSlash p && negb (String.eqb np "/") then np +:+ "/" else np
  end.

(** What a handler does with the [ResponseWriter] it is given: a tree of
    calls, each continuing with what the call returned. *)
Inductive Calls : Type :=
| Return
| CallWrite (b : string) (k : Z * error → Calls)
| CallWriteHeader (statusCode : Z) (k : Calls)
| ReadHeader (k : header → Calls)
| MutateHeader (f : header → header) (k : Calls).

(** [http.Handler]. *)
Definition Handler : Type := Request → Calls.

(** Running the calls of a handler against a writer. *)
Fixpoint serve {W} `{ResponseWriter W} (c : Calls) (w : W) : W :=
  match c with
  | Return => w
  | CallWrite b k => let '(w', res) := Write b w in serve (k res) w'
  | CallWriteHeader statusCode k => serve k (WriteHeader statusCode w)
  | ReadHeader k => serve (k (Header w)) w
  | MutateHeader f k => serve k (withHeader f w)
  end.

(** [h.ServeHTTP(w, r)]. *)
Definition ServeHTTP {W} `{ResponseWriter W} (h : Handler) (w : W) (r : Request) : W :=
  serve (h r) w.

(** *** A recording writer

    The real response as the sequence of calls made on it, with the header
    map it holds: what a test double such as [httptest.ResponseRecorder], or
    the connection, observes. *)
Inductive Event : Type :=
| EvHeader (h : header)        (* the header map was changed, into [h] *)
| EvWriteHeader (statusCode : Z)
| EvWrite (b : string).

Record Recorder := { rec_header : header; rec_events : list Event }.

#[export] Instance Recorder_writer : ResponseWriter Recorder := {
  Header w := rec_header w;
  withHeader f w :=
    {| rec_header := f (rec_header w);
       rec_events := rec_events w ++ [EvHeader (f (rec_header w))] |};
  Write b w :=
    ({| rec_header := rec_header w; rec_events := rec_events w ++ [EvWrite b] |},
     (Z.of_nat (String.length b), None));
  WriteHeader statusCode w :=
    {| rec_header := rec_header w;
       rec_events := rec_events w ++ [EvWriteHeader statusCode] |};
}.

(** A response on which nothing was called yet. *)
Definition NewRecorder : Recorder := {| rec_header := ∅; rec_events := [] |}.

(** The status line a [net/http] response sends for a sequence of calls: the
    first [WriteHeader], or 200 at the first [Write] when none came before. *)
Fixpoint wireStatus (evs : list Event) : option Z :=
  match evs with
  | [] => None
  | EvWriteHeader c :: _ => Some c
  | EvWrite _ :: _ => Some StatusOK
  | EvHeader _ :: evs => wireStatus evs
  end.

(** The body bytes written. *)
Fixpoint wireBody (evs : list Event) : string :=
  match evs with
  | [] => ""
  | EvWrite b :: evs => b +:+ wireBody evs
  | _ :: evs => wireBody evs
  end.

Definition isStatusEvent (e : Event) : bool :=
  match e with EvWriteHeader _ => true | _ => false end.

Definition isHeaderEvent (e : Event) : bool :=
  match e with EvHeader _ => true | _ => false end.

End http.

(* ===================================================================== *)
(** ** The websocket connection of [gorilla/websocket], as far as used *)
(* ===================================================================== *)

Module websocket.

Import http.

(** The values of the [map[string]any] that is sent. *)
Inductive any : Type :=
| AnyString (s : string)
| AnyInt64 (n : Z).

(** What [conn.ReadMessage()] returns: [(messageType, p, nil)] or an error. *)
Inductive ReadResult : Type :=
| Message (messageType : Z) (p : string)
| ReadError (err : string).

(** The remote end and the network, as the results the calls will get:
    whether the upgrade and the send fail, and the result of the [i]-th
    [ReadMessage], for every [i] (a peer may go on sending for ever). *)
Record Peer := {
  upgradeErr : error;
  writeErr : error;
  incoming : nat → ReadResult;
}.

(** The calls [handleLiveReload] makes, in order, with their results. *)
Inductive Call : Type :=
| Upgrade (err : error)
| WriteJSON (v : gmap string any) (err : error)
| ReadMessage (res : ReadResult)
| Close
| LogError (msg : string) (err : string).

(** The messages that reached the client: the sends that did not fail. *)
Fixpoint delivered (t : list Call) : list (gmap string any) :=
  match t with
  | [] => []
  | WriteJSON v None :: t => v :: delivered t
  | _ :: t => delivered t
  end.

(** The messages the server tried to send. *)
Fixpoint attempted (t : list Call) : list (gmap string any) :=
  match t with
  | [] => []
  | WriteJSON v _ :: t => v :: attempted t
  | _ :: t => attempted t
  end.

(** The results of the reads made. *)
Fixpoint reads (t : list Call) : list ReadResult :=
  match t with
  | [] => []
  | ReadMessage res :: t => res :: reads t
  | _ :: t => reads t
  end.

Definition isReadError (res : ReadResult) : bool :=
  match res with ReadError _ => true | Message _ _ => false end.

End websocket.

(* ===================================================================== *)
(** ** [livereload.go] *)
(* ===================================================================== *)

Module livereload.

Import strings http websocket.

#[local] Arguments String.append !_ _ / : simpl nomatch.

Definition newline : string := String "010"%char "".

(** *** [responseWriter]

    [type responseWriter struct { http.ResponseWriter; body *bytes.Buffer;
    statusCode int }]. The embedded writer is the real one; its state is
    carried in the field, so that what the wrapped handler does to the real
    header map through the wrapper is seen on the real writer afterwards. *)
Record responseWriter (W : Type) := {
  rw_ResponseWriter : W;
  rw_body : string;
  rw_statusCode : Z;
}.
Arguments rw_ResponseWriter {W} _.
Arguments rw_body {W} _.
Arguments rw_statusCode {W} _.

Section Capturer.
Context {W : Type} `{ResponseWriter W}.

(** [func (rw *responseWriter) Write(b []byte) (int, error)]:
    [rw.body.Write(b)], which appends and returns [len(b), nil]. *)
Definition responseWriter_Write (b : string) (rw : responseWriter W)
  : responseWriter W * (Z * error) :=
  ({| rw_ResponseWriter := rw_ResponseWriter rw;
      rw_body := rw_body rw +:+ b;
      rw_statusCode := rw_statusCode rw |},
   (Z.of_nat (String.length b), None)).

(** [func (rw *responseWriter) WriteHeader(statusCode int)]. *)
Definition responseWriter_WriteHeader (statusCode : Z) (rw : responseWriter W)
  : responseWriter W :=
  {| rw_ResponseWriter := rw_ResponseWriter rw;
     rw_body := rw_body rw;
     rw_statusCode := statusCode |}.

(** [func (rw *responseWriter) Header() http.Header]: the map of the real
    writer itself. *)
Definition responseWriter_Header (rw : responseWriter W) : header :=
  Header (rw_ResponseWriter rw).

Definition responseWriter_withHeader (f : header → header) (rw : responseWriter W)
  : responseWriter W :=
  {| rw_ResponseWriter := withHeader f (rw_ResponseWriter rw);
     rw_body := rw_body rw;
     rw_statusCode := rw_statusCode rw |}.

#[export] Instance responseWriter_writer : ResponseWriter (responseWriter W) := {
  Header := responseWriter_Header;
  withHeader := responseWriter_withHeader;
  Write := responseWriter_Write;
  WriteHeader := responseWriter_WriteHeader;
}.
End Capturer.

(** *** The classifiers *)

(** The body test of [isHTMLResponse], on the lower-cased body. *)
Definition looksLikeHTML (bodyLower : string) : bool :=
  Contains bodyLower "<html"
  || Contains bodyLower "<!doctype html"
  || Contains bodyLower "<head>"
  || (Contains bodyLower "<body" && Contains bodyLower "</body>").

Definition isHTMLResponse (body : string) (headers : header) : bool :=
  let contentType := HeaderGet headers "Content-Type" in
  if Contains contentType "text/html" then true
  else
    let bodyLower := ToLower body in
    looksLikeHTML bodyLower.

Definition isDevelopmentMode (r : Request) : bool :=
  let host := Host r in
  Contains host "localhost"
  || Contains host "127.0.0.1"
  || HasPrefix host "localhost:"
  || HasPrefix host "127.0.0.1:".

Section Livereload.

(** [//go:embed script.html]: the asset is not part of the sources; it is
    any string. *)
Variable scriptHTML : string.

(** [var serverStartTime = time.Now().Unix()], fixed when the process
    starts. *)
Variable serverStartTime : Z.

(** The order in which [range] yields the keys of a map: chosen by the Go
    runtime, different from run to run. It lists every key of the map
    once; when the loop body creates entries, the runtime may yield these
    too, or skip them. *)
Variable rangeOrder : header → list string.

(** *** [injectScript] *)
Definition injectScript (body : string) : string :=
  if Contains body "</head>" then
    Replace body "</head>" (scriptHTML +:+ newline +:+ "</head>") 1
  else if Contains body "</body>" then
    Replace body "</body>" (scriptHTML +:+ newline +:+ "</body>") 1
  else if Contains body "</html>" then
    Replace body "</html>" (scriptHTML +:+ newline +:+ "</html>") 1
  else body +:+ scriptHTML.

(** *** [handleLiveReload] *)

Definition serverInfo : gmap string any :=
  {[ "type" := AnyString "server-info";
     "startTime" := AnyInt64 serverStartTime ]}.

(** The loop [for { _, _, err := conn.ReadMessage(); if err != nil
    { break } }], from the [i]-th read on. [None]: still reading when the
    fuel is spent. *)
Fixpoint readLoop (fuel : nat) (incoming : nat → ReadResult) (i : nat)
  : option (list Call) :=
  match fuel with
  | 0 => None
  | S fuel =>
      match incoming i with
      | ReadError err => Some [ReadMessage (ReadError err)]
      | Message mt p =>
          t ← readLoop fuel incoming (S i);
          Some (ReadMessage (Message mt p) :: t)
      end
  end.

(** The calls of one run of [handleLiveReload]; [defer conn.Close()] puts
    [Close] at the end of every path after a successful upgrade. *)
Definition handleLiveReload (fuel : nat) (peer : Peer) : option (list Call) :=
  match upgradeErr peer with
  | Some err =>
      Some [Upgrade (Some err); LogError "WebSocket upgrade failed" err]
  | None =>
      match writeErr peer with
      | Some err =>
          Some [Upgrade None; WriteJSON serverInfo (Some err);
                LogError "Failed to send server info" err; Close]
      | None =>
          t ← readLoop fuel (incoming peer) 0;
          Some (Upgrade None :: WriteJSON serverInfo None :: t ++ [Close])
      end
  end.

(** *** [Middleware] *)

Section Dispatch.
Context {W : Type} `{ResponseWriter W}.

(** [for _, value := range values { w.Header().Add(key, value) }] *)
Definition addValues (key : string) (values : list string) (w : W) : W :=
  foldl (λ w value, withHeader (HeaderAdd key value) w) w values.

(** [for key, values := range wrapper.Header() { ... }]: the keys come in
    the order [keys]; the values of a key are those the map holds when
    the key is reached. *)
Definition copyHeaders (keys : list string) (w : W) : W :=
  foldl (λ w key,
           match Header w !! key with
           | Some values => addValues key values w
           | None => w
           end) w keys.

(** [if wrapper.statusCode != http.StatusOK { w.WriteHeader(wrapper.statusCode) }] *)
Definition flushStatus (statusCode : Z) (w : W) : W :=
  if negb (statusCode =? StatusOK)%Z then WriteHeader statusCode w else w.

(** The handler registered on ["/"]. In Go [w] is one object, reached
    directly and through [wrapper.ResponseWriter]; here its state after the
    wrapped handler ran is the one the wrapper carries. *)
Definition catchAll (next : Handler) (w : W) (r : Request) : W :=
  if negb (isDevelopmentMode r) then ServeHTTP next w r
  else
    let wrapper :=
      ServeHTTP next
        {| rw_ResponseWriter := w; rw_body := ""; rw_statusCode := StatusOK |} r in
    let w := rw_ResponseWriter wrapper in
    let body := rw_body wrapper in
    if negb (isHTMLResponse body (Header wrapper)) then
      let w := flushStatus (rw_statusCode wrapper) w in
      (Write (rw_body wrapper) w).1
    else
      let modifiedBody := injectScript body in
      let w := flushStatus (rw_statusCode wrapper) w in
      (* [wrapper.Header()] is [w.Header()], the map as it is now *)
      let w := copyHeaders (rangeOrder (Header w)) w in
      (Write modifiedBody w).1.

(** What serving one request comes to: a response written through [w] by
    the handler registered on ["/"], a websocket session, or a redirect to
    [location] that the mux sends by itself. *)
Inductive Outcome : Type :=
| Response (w : W)
| LiveReload (calls : option (list Call))
| Redirect (location : string).

(** [Middleware(next)]: a [ServeMux] with [handleLiveReload] on
    ["/ws/livereload"] (a pattern without a trailing slash: that path only)
    and the handler above on ["/"], which takes every other path. Before
    it selects a handler the mux cleans the path, and a request whose path
    is not in clean form (repeated slashes, dot elements) gets a redirect
    to the cleaned path: neither handler runs. [peer] and [fuel] matter on
    the websocket route only. *)
Definition Middleware (next : Handler) (fuel : nat) (peer : Peer)
           (w : W) (r : Request) : Outcome :=
  if negb (String.eqb (cleanPath (Path r)) (Path r))
  then Redirect (cleanPath (Path r))
  else if String.eqb (Path r) "/ws/livereload"
  then LiveReload (handleLiveReload fuel peer)
  else Response (catchAll next w r).
End Dispatch.

End Livereload.

Arguments Outcome W : clear implicits.

End livereload.


Import strings http websocket livereload.

#[local] Arguments String.append !_ _ / : simpl nomatch.

(* ===================================================================== *)
(** * Terms of the statements, and sample inputs *)
(* ===================================================================== *)

(** ** Terms of the statements *)

(** The claim's words for C2: the body counts only when the declared type is
    absent (the empty string that [Get] returns) or [ambiguous]; which
    declared types are ambiguous is left open. *)
Definition isHTMLResponse_as_claimed (ambiguous : string → bool)
           (body : string) (headers : header) : bool :=
  let contentType := HeaderGet headers "Content-Type" in
  Contains contentType "text/html"
  || ((String.eqb contentType "" || ambiguous contentType)
      && looksLikeHTML (ToLower body)).


(** The map after the loop [for key, values := range h { for _, value :=
    range values { h.Add(key, value) } }] that visits the keys in the order
    [keys]. *)
Definition copyInto (keys : list string) (h : header) : header :=
  foldl (λ h key,
           match h !! key with
           | Some values => foldl (λ h value, HeaderAdd key value h) h values
           | None => h
           end) h keys.

Definition headerEvents (evs : list Event) : Prop :=
  Forall (λ e, isHeaderEvent e = true) evs.

(** What the wrapped handler leaves behind when it runs against a fresh
    [responseWriter] around [w]: the wrapper at line 123 of [livereload.go],
    after [next.ServeHTTP(wrapper, r)]. *)
Definition captured {W} `{ResponseWriter W} (next : Handler) (w : W) (r : Request)
  : responseWriter W :=
  ServeHTTP next
    {| rw_ResponseWriter := w; rw_body := ""; rw_statusCode := StatusOK |} r.



(** The status call of the flush: made only for a code other than 200. *)
Definition flushedStatus (statusCode : Z) : list Event :=
  if (statusCode =? StatusOK)%Z then [] else [EvWriteHeader statusCode].

(** ** Inputs to run the definitions on *)

(** A snippet to run the definitions on. *)
Definition sampleScript : string := "<script>reload()</script>".

Definition jsonHeaders : header := {[ "Content-Type" := ["application/json"] ]}.
Definition htmlHeaders : header :=
  {[ "Content-Type" := ["text/html; charset=utf-8"] ]}.

(** An order for [range]: the keys as [elements] lists them. *)
Definition keysOf (h : header) : list string := elements (dom h).

Definition sampleStart : Z := 1700000000.

(** The JSON text [{"error":404}]. *)
Definition jsonBody : string :=
  "{" +:+ String "034"%char "error" +:+ String "034"%char ":404}".

Definition htmlBody : string := "<html><head></head><body>hi</body></html>".

(** A handler that declares HTML, sets the status 200 itself and writes a
    document. *)
Definition htmlHandler : Handler :=
  λ _, MutateHeader (HeaderSet "Content-Type" "text/html")
         (CallWriteHeader 200 (CallWrite htmlBody (λ _, Return))).


(** A handler that answers 404 with a JSON body. *)
Definition notFoundHandler : Handler :=
  λ _, MutateHeader (HeaderSet "Content-Type" "application/json")
         (CallWriteHeader StatusNotFound (CallWrite jsonBody (λ _, Return))).

Definition localRequest : Request := {| Host := "localhost:8080"; Path := "/" |}.
Definition remoteRequest : Request := {| Host := "example.com"; Path := "/" |}.

(** A peer that closes at once, one whose first send fails while messages
    are waiting, and one that sends two messages and leaves. *)
Definition closedPeer : Peer :=
  {| upgradeErr := None; writeErr := None; incoming := λ _, ReadError "EOF" |}.
Definition unreachablePeer : Peer :=
  {| upgradeErr := None; writeErr := Some "broken pipe";
     incoming := λ _, Message 1 "ping" |}.
Definition chattyPeer : Peer :=
  {| upgradeErr := None; writeErr := None;
     incoming := λ i, if i <? 2 then Message 1 "ping" else ReadError "going away" |}.

(** ** Terms of the further properties *)

Definition isWriteEvent (e : Event) : bool :=
  match e with EvWrite _ => true | _ => false end.

(** [injectScript] finds one of its three markers in the body. *)
Definition hasMarker (body : string) : bool :=
  Contains body "</head>" || Contains body "</body>" || Contains body "</html>".

(** A handler without branches: the calls it makes, one after the other,
    whatever they return. *)
Inductive Op : Type :=
| OpWrite (b : string)
| OpWriteHeader (statusCode : Z)
| OpHeader (f : header → header).

Fixpoint straight (ops : list Op) : Calls :=
  match ops with
  | [] => Return
  | OpWrite b :: ops => CallWrite b (λ _, straight ops)
  | OpWriteHeader statusCode :: ops => CallWriteHeader statusCode (straight ops)
  | OpHeader f :: ops => MutateHeader f (straight ops)
  end.

(** The bytes of the [Write] calls, in order. *)
Fixpoint written (ops : list Op) : string :=
  match ops with
  | [] => ""
  | OpWrite b :: ops => b +:+ written ops
  | _ :: ops => written ops
  end.

(** The code of the last [WriteHeader] call, [d] when there is none. *)
Fixpoint lastStatus (d : Z) (ops : list Op) : Z :=
  match ops with
  | [] => d
  | OpWriteHeader statusCode :: ops => lastStatus statusCode ops
  | _ :: ops => lastStatus d ops
  end.

(** The changes of the header map, in order. *)
Fixpoint headerChanges (ops : list Op) : list (header → header) :=
  match ops with
  | [] => []
  | OpHeader f :: ops => f :: headerChanges ops
  | _ :: ops => headerChanges ops
  end.

(** A handler that writes a document in three pieces and changes its mind
    about the status. *)
Definition piecewiseOps : list Op :=
  [OpHeader (HeaderSet "Content-Type" "text/html");
   OpWriteHeader 404; OpWrite "<html><head>"; OpWrite "</head>";
   OpWriteHeader 500; OpWrite "</html>"].

(* ===================================================================== *)
(** * Properties *)
(* ===================================================================== *)

(** ** Strings *)

Lemma append_nil_r s : s +:+ "" = s.
Proof. induction s as [|c s IH]; simpl; [done | by rewrite IH]. Qed.

Lemma append_assoc s t u : (s +:+ t) +:+ u = s +:+ t +:+ u.
Proof. induction s as [|c s IH]; simpl; [done | by rewrite IH]. Qed.

Lemma length_append s t :
  String.length (s +:+ t) = String.length s + String.length t.
Proof. induction s as [|c s IH]; simpl; [done | by rewrite IH]. Qed.

Lemma slice_to_from n s : slice_to n s +:+ slice_from n s = s.
Proof.
  revert s. induction n as [|n IH]; intros [|c s]; simpl; try done.
  by rewrite IH.
Qed.

Lemma slice_from_append s t : slice_from (String.length s) (s +:+ t) = t.
Proof. induction s as [|c s IH]; simpl; [by destruct t | done]. Qed.

Lemma slice_to_append s t : slice_to (String.length s) (s +:+ t) = s.
Proof. induction s as [|c s IH]; simpl; [by destruct t | by rewrite IH]. Qed.

Lemma slice_from_add n m s :
  slice_from (n + m) s = slice_from m (slice_from n s).
Proof.
  revert s. induction n as [|n IH]; intros s; simpl; [done |].
  destruct s as [|c s]; [by destruct m | apply IH].
Qed.

Lemma HasPrefix_begins s p : HasPrefix s p = true ↔ begins_with p s.
Proof.
  unfold begins_with. revert s.
  induction p as [|a p IH]; intros s; simpl.
  - split; [intros _; by exists s | done].
  - destruct s as [|b s].
    + split; [done | intros [post ?]; discriminate].
    + destruct (Ascii.eqb_spec a b) as [->|Hne].
      * rewrite IH. split; intros [post H]; exists post; [by rewrite H | by injection H].
      * split; [done | intros [post H]; injection H; congruence].
Qed.

Lemma HasPrefix_append p t : HasPrefix (p +:+ t) p = true.
Proof. apply HasPrefix_begins. by exists t. Qed.

(** [Index] returns a position where [sub] stands, and no position before it
    has [sub]. *)
Lemma Index_Some s sub n :
  Index s sub = Some n →
  first_occurrence sub s (slice_to n s) (slice_from (n + String.length sub) s)
  ∧ String.length (slice_to n s) = n.
Proof.
  revert n. induction s as [|c s IH]; intros n; simpl.
  - destruct (HasPrefix "" sub) eqn:Hp; [|done].
    intros [= <-]. apply HasPrefix_begins in Hp as [post Hp].
    destruct sub; [|discriminate]. simpl in *. subst post.
    split; [|done]. split; [done | simpl; lia].
  - destruct (HasPrefix (String c s) sub) eqn:Hp.
    + intros [= <-]. apply HasPrefix_begins in Hp as [post Hp].
      split; [|done]. split; [|simpl; lia].
      simpl. rewrite Hp at 2. by rewrite slice_from_append.
    + destruct (Index s sub) as [m|] eqn:Hi; [|done].
      intros [= <-]. destruct (IH m eq_refl) as [[Heq Hmin] Hlen].
      split; [|simpl; by rewrite Hlen]. split.
      * simpl. by rewrite <-Heq.
      * intros [|d pre'] post' H; simpl in H.
        -- rewrite H, HasPrefix_append in Hp. done.
        -- injection H as -> H. simpl. specialize (Hmin _ _ H). lia.
Qed.

Lemma Index_None s sub : Index s sub = None → ¬ occurs sub s.
Proof.
  induction s as [|c s IH]; simpl.
  - destruct (HasPrefix "" sub) eqn:Hp; [done|]. intros _ [pre [post H]].
    destruct pre; [|discriminate]. simpl in H.
    rewrite H, HasPrefix_append in Hp. done.
  - destruct (HasPrefix (String c s) sub) eqn:Hp; [done|].
    destruct (Index s sub) eqn:Hi; [done|]. intros _ [pre [post H]].
    destruct pre as [|d pre]; simpl in H.
    + rewrite H, HasPrefix_append in Hp. done.
    + injection H as -> H. apply IH; [done | by exists pre, post].
Qed.

Lemma Contains_occurs s sub : Contains s sub = true ↔ occurs sub s.
Proof.
  unfold Contains. destruct (Index s sub) as [n|] eqn:Hi.
  - split; [intros _ | done]. apply Index_Some in Hi as [[Heq _] _].
    by eexists _, _.
  - split; [done | intros H]. by apply Index_None in H.
Qed.

Lemma Contains_false s sub : Contains s sub = false ↔ ¬ occurs sub s.
Proof.
  rewrite <-Contains_occurs. by destruct (Contains s sub).
Qed.

(** A first occurrence is unique. *)
Lemma first_occurrence_inj sub s pre post pre' post' :
  first_occurrence sub s pre post → first_occurrence sub s pre' post' →
  pre = pre' ∧ post = post'.
Proof.
  intros [H1 M1] [H2 M2].
  assert (String.length pre = String.length pre') as Hlen.
  { specialize (M1 _ _ H2). specialize (M2 _ _ H1). lia. }
  assert (pre = pre') as <-.
  { rewrite <-(slice_to_append pre (sub +:+ post)), <-H1, H2, Hlen.
    apply slice_to_append. }
  split; [done|].
  rewrite <-(slice_from_append (pre +:+ sub) post).
  rewrite <-(slice_from_append (pre +:+ sub) post') at 1.
  by rewrite !append_assoc, <-H1, <-H2.
Qed.

(** [Replace] with [n = 1] splices [new] in place of the first [old]. *)
Lemma Replace_first s old new pre post :
  old ≠ new → first_occurrence old s pre post →
  Replace s old new 1 = pre +:+ new +:+ post.
Proof.
  intros Hne Hfirst. unfold Replace.
  apply String.eqb_neq in Hne as ->. simpl.
  destruct (Index s old) as [j|] eqn:Hi.
  - apply Index_Some in Hi as [Hi _].
    by destruct (first_occurrence_inj _ _ _ _ _ _ Hi Hfirst) as [-> ->].
  - apply Index_None in Hi. destruct Hi.
    destruct Hfirst as [-> _]. by eexists _, _.
Qed.

Lemma Contains_first s sub :
  Contains s sub = true → ∃ pre post, first_occurrence sub s pre post.
Proof.
  unfold Contains. destruct (Index s sub) as [n|] eqn:Hi; [|done].
  intros _. apply Index_Some in Hi as [Hi _]. by eexists _, _.
Qed.

Lemma append_inj_r s t u : s +:+ t = s +:+ u → t = u.
Proof.
  intros E. rewrite <-(slice_from_append s t), <-(slice_from_append s u).
  by rewrite E.
Qed.

(** [old] is never equal to the text that replaces it in [injectScript]. *)
Lemma marker_replacement_differs snippet marker :
  marker ≠ snippet +:+ newline +:+ marker.
Proof.
  intros E. apply (f_equal String.length) in E.
  rewrite !length_append in E. simpl in E. lia.
Qed.

Lemma Contains_HasPrefix s p : HasPrefix s p = true → Contains s p = true.
Proof.
  intros [post ->]%HasPrefix_begins. apply Contains_occurs. by exists "", post.
Qed.

Lemma begins_with_occurs p s : begins_with p s → occurs p s.
Proof. intros [post ->]. by exists "", post. Qed.

Lemma begins_with_append p q s : begins_with (p +:+ q) s → begins_with p s.
Proof. intros [post ->]. exists (q +:+ post). by rewrite append_assoc. Qed.

(** ** [injectScript] *)

Section InjectScript.
Variable scriptHTML : string.

(** One branch of [injectScript]: the replacement at a marker the body
    contains. *)
Lemma Replace_marker body marker :
  Contains body marker = true →
  ∃ pre post,
    first_occurrence marker body pre post ∧
    Replace body marker (scriptHTML +:+ newline +:+ marker) 1
    = pre +:+ scriptHTML +:+ newline +:+ marker +:+ post.
Proof.
  intros [pre [post Hfirst]]%Contains_first. exists pre, post.
  split; [done|].
  rewrite (Replace_first _ _ _ pre post); [| apply marker_replacement_differs | done].
  by rewrite !append_assoc.
Qed.

Lemma Replace_marker_length body marker :
  Contains body marker = true →
  String.length (Replace body marker (scriptHTML +:+ newline +:+ marker) 1)
  = String.length body + String.length scriptHTML + 1.
Proof.
  intros (pre & post & [-> _] & ->)%Replace_marker.
  rewrite !length_append. simpl. lia.
Qed.

(** C1, as amended. [injectScript] works on the first of ["</head>"],
    ["</body>"], ["</html>"] that occurs in the body, in this order of
    priority, and only on the leftmost occurrence of that marker: the body
    is cut there into [pre] and [marker ++ post], and the result is [pre],
    then the snippet followed by one newline, then [marker ++ post], so the
    body is kept whole around the inserted text. With none of the three
    markers the snippet is appended, with no newline. *)
Theorem injectScript_first_marker (body : string) :
  (occurs "</head>" body →
   ∃ pre post, first_occurrence "</head>" body pre post ∧
     injectScript scriptHTML body
     = pre +:+ scriptHTML +:+ newline +:+ "</head>" +:+ post)
  ∧ (¬ occurs "</head>" body → occurs "</body>" body →
     ∃ pre post, first_occurrence "</body>" body pre post ∧
       injectScript scriptHTML body
       = pre +:+ scriptHTML +:+ newline +:+ "</body>" +:+ post)
  ∧ (¬ occurs "</head>" body → ¬ occurs "</body>" body →
     occurs "</html>" body →
     ∃ pre post, first_occurrence "</html>" body pre post ∧
       injectScript scriptHTML body
       = pre +:+ scriptHTML +:+ newline +:+ "</html>" +:+ post)
  ∧ (¬ occurs "</head>" body → ¬ occurs "</body>" body →
     ¬ occurs "</html>" body →
     injectScript scriptHTML body = body +:+ scriptHTML).
Proof.
  unfold injectScript. repeat split.
  - intros Hh%Contains_occurs. rewrite Hh. by apply Replace_marker.
  - intros Hh%Contains_false Hb%Contains_occurs. rewrite Hh, Hb.
    by apply Replace_marker.
  - intros Hh%Contains_false Hb%Contains_false Ht%Contains_occurs.
    rewrite Hh, Hb, Ht. by apply Replace_marker.
  - intros Hh%Contains_false Hb%Contains_false Ht%Contains_false.
    by rewrite Hh, Hb, Ht.
Qed.

(** C10. The output is the body with the snippet put in at one place, and
    one newline after the snippet exactly when one of the three markers
    occurs in the body; the lengths add up accordingly. *)
Theorem injectScript_adds_snippet_and_newline (body : string) :
  let marked :=
    Contains body "</head>" || Contains body "</body>" || Contains body "</html>" in
  (marked = true ↔
   occurs "</head>" body ∨ occurs "</body>" body ∨ occurs "</html>" body)
  ∧ (∃ pre post,
       body = pre +:+ post ∧
       injectScript scriptHTML body
       = pre +:+ scriptHTML +:+ (if marked then newline else "") +:+ post)
  ∧ String.length (injectScript scriptHTML body)
    = String.length body + String.length scriptHTML + (if marked then 1 else 0).
Proof.
  cbv zeta. split; [|split].
  - rewrite !orb_true_iff, !Contains_occurs. tauto.
  - unfold injectScript.
    destruct (Contains body "</head>") eqn:Hh; cbn [orb].
    { apply Replace_marker in Hh as (pre & post & [-> _] & ->).
      by exists pre, ("</head>" +:+ post). }
    destruct (Contains body "</body>") eqn:Hb; cbn [orb].
    { apply Replace_marker in Hb as (pre & post & [-> _] & ->).
      by exists pre, ("</body>" +:+ post). }
    destruct (Contains body "</html>") eqn:Ht; cbn [orb].
    { apply Replace_marker in Ht as (pre & post & [-> _] & ->).
      by exists pre, ("</html>" +:+ post). }
    exists body, "". by rewrite !append_nil_r.
  - unfold injectScript.
    destruct (Contains body "</head>") eqn:Hh; cbn [orb].
    { by apply Replace_marker_length. }
    destruct (Contains body "</body>") eqn:Hb; cbn [orb].
    { by apply Replace_marker_length. }
    destruct (Contains body "</html>") eqn:Ht; cbn [orb].
    { by apply Replace_marker_length. }
    rewrite length_append. lia.
Qed.

End InjectScript.

(** The four cases of [injectScript], run. *)
Example injectScript_runs :
  injectScript sampleScript "<head></head><body></head></body>"
  = "<head>" +:+ sampleScript +:+ newline +:+ "</head><body></head></body>"
  ∧ injectScript sampleScript "<body>hi</body></html>"
    = "<body>hi" +:+ sampleScript +:+ newline +:+ "</body></html>"
  ∧ injectScript sampleScript "hi</html>"
    = "hi" +:+ sampleScript +:+ newline +:+ "</html>"
  ∧ injectScript sampleScript "hi" = "hi" +:+ sampleScript.
Proof. repeat split; reflexivity. Qed.

(** C1, witness: the theorem at a body with two ["</head>"], and at a body
    with no marker. *)
Lemma injectScript_first_marker_witness :
  (occurs "</head>" "<head></head><body></head></body>" ∧
   ∃ pre post,
     first_occurrence "</head>" "<head></head><body></head></body>" pre post ∧
     injectScript sampleScript "<head></head><body></head></body>"
     = pre +:+ sampleScript +:+ newline +:+ "</head>" +:+ post)
  ∧ injectScript sampleScript "hi" = "hi" +:+ sampleScript.
Proof.
  split.
  - assert (occurs "</head>" "<head></head><body></head></body>") as Hoc
      by (apply Contains_occurs; reflexivity).
    split; [exact Hoc|].
    exact (proj1 (injectScript_first_marker sampleScript _) Hoc).
  - apply (injectScript_first_marker sampleScript "hi");
      intros Hc%Contains_occurs; discriminate Hc.
Defined.

(** C1, counterexample to the claim as it was stated: the snippet does not
    stand immediately before the marker; a newline stands between them. *)
Lemma injectScript_newline_before_marker :
  injectScript sampleScript "<head></head>"
  = "<head>" +:+ sampleScript +:+ newline +:+ "</head>"
  ∧ String.eqb (injectScript sampleScript "<head></head>")
               ("<head>" +:+ sampleScript +:+ "</head>") = false.
Proof. split; reflexivity. Qed.

(** ** The classifiers *)

(** C6. [isDevelopmentMode] holds exactly when the host contains, or begins
    with, ["localhost"] or ["127.0.0.1"], whatever follows (a port or
    nothing); it holds of the three development hosts of the specification
    and not of ["example.com"]. *)
Theorem isDevelopmentMode_host :
  (∀ r : Request,
     isDevelopmentMode r = true ↔
     (occurs "localhost" (Host r) ∨ begins_with "localhost" (Host r))
     ∨ (occurs "127.0.0.1" (Host r) ∨ begins_with "127.0.0.1" (Host r)))
  ∧ (∀ path,
       isDevelopmentMode {| Host := "localhost:3000"; Path := path |} = true
       ∧ isDevelopmentMode {| Host := "127.0.0.1"; Path := path |} = true
       ∧ isDevelopmentMode {| Host := "127.0.0.1:8080"; Path := path |} = true
       ∧ isDevelopmentMode {| Host := "example.com"; Path := path |} = false).
Proof.
  split; [|intros path; repeat split; reflexivity].
  intros r. unfold isDevelopmentMode. rewrite !orb_true_iff. split.
  - intros [[[Hc|Hc]|Hp]|Hp].
    + left; left. by apply Contains_occurs.
    + right; left. by apply Contains_occurs.
    + left; right. apply HasPrefix_begins in Hp.
      by apply (begins_with_append "localhost" ":").
    + right; right. apply HasPrefix_begins in Hp.
      by apply (begins_with_append "127.0.0.1" ":").
  - intros [[Hc|Hp]|[Hc|Hp]].
    + left; left; left. by apply Contains_occurs.
    + left; left; left. by apply Contains_occurs, begins_with_occurs.
    + left; left; right. by apply Contains_occurs.
    + left; left; right. by apply Contains_occurs, begins_with_occurs.
Qed.

(** The body test, read as occurrences. *)
Lemma looksLikeHTML_occurs (bodyLower : string) :
  looksLikeHTML bodyLower = true ↔
  occurs "<html" bodyLower ∨ occurs "<!doctype html" bodyLower
  ∨ occurs "<head>" bodyLower
  ∨ (occurs "<body" bodyLower ∧ occurs "</body>" bodyLower).
Proof.
  unfold looksLikeHTML.
  rewrite !orb_true_iff, andb_true_iff, !Contains_occurs. tauto.
Qed.

(** C2, as amended. [isHTMLResponse] holds exactly when the first
    [Content-Type] value contains ["text/html"] (as written, case
    matters), or the lower-cased body has one of the HTML marks. The body
    is looked at whenever the header does not contain ["text/html"]: when
    there is no header, and just as well when the header names another
    type. A header with ["text/html"] decides alone, whatever the body. *)
Theorem isHTMLResponse_header_or_body (body : string) (headers : header) :
  (isHTMLResponse body headers = true ↔
   occurs "text/html" (HeaderGet headers "Content-Type")
   ∨ looksLikeHTML (ToLower body) = true)
  ∧ (isHTMLResponse body headers = true ↔
     occurs "text/html" (HeaderGet headers "Content-Type")
     ∨ occurs "<html" (ToLower body)
     ∨ occurs "<!doctype html" (ToLower body)
     ∨ occurs "<head>" (ToLower body)
     ∨ (occurs "<body" (ToLower body) ∧ occurs "</body>" (ToLower body)))
  ∧ (occurs "text/html" (HeaderGet headers "Content-Type") →
     isHTMLResponse body headers = true)
  ∧ (¬ occurs "text/html" (HeaderGet headers "Content-Type") →
     isHTMLResponse body headers = looksLikeHTML (ToLower body)).
Proof.
  assert (isHTMLResponse body headers = true ↔
          occurs "text/html" (HeaderGet headers "Content-Type")
          ∨ looksLikeHTML (ToLower body) = true) as Hiff.
  { unfold isHTMLResponse. rewrite <-Contains_occurs.
    destruct (Contains (HeaderGet headers "Content-Type") "text/html");
      intuition congruence. }
  split; [exact Hiff|]. split; [by rewrite Hiff, looksLikeHTML_occurs|].
  split.
  - intros Hc. apply Hiff. by left.
  - intros Hc%Contains_false. unfold isHTMLResponse. by rewrite Hc.
Qed.

(** C2, counterexample to the claim as it was stated: under a declared type
    that is present and names JSON, a body with an HTML mark is still
    classified as HTML, while the claim, on any reading that does not call
    ["application/json"] ambiguous, says it is not. *)
Lemma isHTMLResponse_sniffs_under_json_type :
  HeaderGet jsonHeaders "Content-Type" = "application/json"
  ∧ isHTMLResponse "<html><body>hi</body></html>" jsonHeaders = true
  ∧ (∀ ambiguous : string → bool,
       ambiguous "application/json" = false →
       isHTMLResponse_as_claimed ambiguous
         "<html><body>hi</body></html>" jsonHeaders = false).
Proof.
  split; [reflexivity|]. split; [reflexivity|].
  intros ambiguous Ha. unfold isHTMLResponse_as_claimed.
  change (HeaderGet jsonHeaders "Content-Type") with "application/json".
  rewrite Ha. reflexivity.
Qed.

(** C2, witness, with the examples of the specification: a [text/html]
    header decides for a body that is not HTML; an empty header and an HTML
    document; a JSON type and a JSON body; an upper-case header value. *)
Lemma isHTMLResponse_header_or_body_witness :
  (occurs "text/html" (HeaderGet htmlHeaders "Content-Type")
   ∧ isHTMLResponse "plain text" htmlHeaders = true)
  ∧ isHTMLResponse "<!DOCTYPE html><html><body>hi</body></html>" ∅ = true
  ∧ isHTMLResponse "{}" jsonHeaders = false
  ∧ isHTMLResponse "plain text" {[ "Content-Type" := ["TEXT/HTML"] ]} = false.
Proof.
  split; [|repeat split; reflexivity].
  assert (occurs "text/html" (HeaderGet htmlHeaders "Content-Type")) as Hoc
    by (apply Contains_occurs; reflexivity).
  split; [exact Hoc|].
  exact (proj1 (proj2 (proj2 (isHTMLResponse_header_or_body "plain text" htmlHeaders))) Hoc).
Defined.

(** ** Headers *)

















(** ** The capturer *)

(** Through the capturer a handler reaches the real writer with changes of
    the header map only. *)
Lemma serve_capturer_events (c : Calls) (rw : responseWriter Recorder) :
  ∃ hs, headerEvents hs ∧
        rec_events (rw_ResponseWriter (serve c rw))
        = rec_events (rw_ResponseWriter rw) ++ hs.
Proof.
  revert rw. induction c as [|b k IH|code k IH|k IH|f k IH]; intros rw; simpl.
  - exists []. split; [constructor | by rewrite app_nil_r].
  - destruct (IH (Z.of_nat (String.length b), None) (responseWriter_Write b rw).1)
      as (hs & Hhs & Heq).
    exists hs. split; [done | exact Heq].
  - destruct (IH (responseWriter_WriteHeader code rw)) as (hs & Hhs & Heq).
    exists hs. split; [done | exact Heq].
  - apply IH.
  - destruct (IH (responseWriter_withHeader f rw)) as (hs & Hhs & ->).
    exists (EvHeader (f (rec_header (rw_ResponseWriter rw))) :: hs).
    split; [by constructor|]. simpl. by rewrite <-app_assoc.
Qed.



(** Outside that situation (a key in another spelling, assigned to the map
    directly) [Add] writes to the canonical key, a new entry, and the
    outcome depends on whether [range] yields it. *)
Example copyInto_raw_key :
  copyInto ["x-a"] {[ "x-a" := ["1"] ]}
  = {[ "x-a" := ["1"]; "X-A" := ["1"] ]}
  ∧ copyInto ["x-a"; "X-A"] {[ "x-a" := ["1"] ]}
    = {[ "x-a" := ["1"]; "X-A" := ["1"; "1"] ]}.
Proof. split; vm_compute; reflexivity. Qed.

Lemma wireBody_app evs1 evs2 : wireBody (evs1 ++ evs2) = wireBody evs1 +:+ wireBody evs2.
Proof.
  induction evs1 as [|[h|c|b] evs1 IH]; simpl; try done.
  by rewrite IH, append_assoc.
Qed.

Lemma wireBody_headerEvents hs : headerEvents hs → wireBody hs = "".
Proof.
  induction 1 as [|[h|c|b] hs He _ IH]; simpl; try done.
Qed.

Lemma filter_status_headerEvents hs :
  headerEvents hs → filter (λ e, isStatusEvent e = true) hs = [].
Proof.
  induction 1 as [|[h|c|b] hs He _ IH]; try done.
Qed.

(** C7. [Write] on the capturer returns the number of bytes it was given and
    no error, and only extends the buffer; [WriteHeader] only records the
    code; neither changes the real writer. Whatever a handler does through
    the capturer, the real writer sees no status and no body byte of it:
    the calls it receives meanwhile are changes of its header map. *)
Theorem responseWriter_buffers :
  (∀ W (HW : ResponseWriter W) (b : string) (rw : responseWriter W),
     (Write b rw).2 = (Z.of_nat (String.length b), None)
     ∧ rw_ResponseWriter (Write b rw).1 = rw_ResponseWriter rw
     ∧ rw_body (Write b rw).1 = rw_body rw +:+ b
     ∧ rw_statusCode (Write b rw).1 = rw_statusCode rw)
  ∧ (∀ W (HW : ResponseWriter W) (statusCode : Z) (rw : responseWriter W),
       rw_ResponseWriter (WriteHeader statusCode rw) = rw_ResponseWriter rw
       ∧ rw_body (WriteHeader statusCode rw) = rw_body rw
       ∧ rw_statusCode (WriteHeader statusCode rw) = statusCode)
  ∧ (∀ (next : Handler) (r : Request) (rw : responseWriter Recorder),
       ∃ hs, headerEvents hs
             ∧ rec_events (rw_ResponseWriter (ServeHTTP next rw r))
               = rec_events (rw_ResponseWriter rw) ++ hs
             ∧ wireBody (rec_events (rw_ResponseWriter (ServeHTTP next rw r)))
               = wireBody (rec_events (rw_ResponseWriter rw))
             ∧ filter (λ e, isStatusEvent e = true)
                      (rec_events (rw_ResponseWriter (ServeHTTP next rw r)))
               = filter (λ e, isStatusEvent e = true)
                        (rec_events (rw_ResponseWriter rw))).
Proof.
  split; [done|]. split; [done|].
  intros next r rw. unfold ServeHTTP.
  destruct (serve_capturer_events (next r) rw) as (hs & Hhs & Hev).
  exists hs. rewrite Hev. split; [done|]. split; [done|]. split.
  - rewrite wireBody_app, (wireBody_headerEvents hs) by done.
    apply append_nil_r.
  - rewrite filter_app, (filter_status_headerEvents hs) by done.
    apply app_nil_r.
Qed.

(** ** The dispatcher *)

Section Dispatcher.
Variable scriptHTML : string.
Variable serverStartTime : Z.
Variable rangeOrder : header → list string.

#[local] Abbreviation Middleware :=
  (livereload.Middleware scriptHTML serverStartTime rangeOrder).


Lemma flushStatus_events statusCode (w : Recorder) :
  rec_events (flushStatus statusCode w)
  = rec_events w
    ++ (if (statusCode =? StatusOK)%Z then [] else [EvWriteHeader statusCode])
  ∧ rec_header (flushStatus statusCode w) = rec_header w.
Proof.
  unfold flushStatus. destruct (statusCode =? StatusOK)%Z; simpl; [|done].
  by rewrite app_nil_r.
Qed.

Lemma addValues_Recorder key values (w : Recorder) :
  (∃ cs, headerEvents cs ∧ rec_events (addValues key values w) = rec_events w ++ cs)
  ∧ rec_header (addValues key values w)
    = foldl (λ h value, HeaderAdd key value h) (rec_header w) values.
Proof.
  unfold addValues. revert w.
  induction values as [|v values IH]; intros w; cbn [foldl].
  - split; [|done]. exists []. split; [constructor | by rewrite app_nil_r].
  - destruct (IH (withHeader (HeaderAdd key v) w)) as [(cs & Hcs & Hev) Hh].
    split; [|exact Hh].
    exists (EvHeader (HeaderAdd key v (rec_header w)) :: cs).
    split; [by constructor|].
    rewrite Hev. simpl. by rewrite <-app_assoc.
Qed.

Lemma copyHeaders_Recorder keys (w : Recorder) :
  (∃ cs, headerEvents cs ∧ rec_events (copyHeaders keys w) = rec_events w ++ cs)
  ∧ rec_header (copyHeaders keys w) = copyInto keys (rec_header w).
Proof.
  unfold copyHeaders, copyInto. revert w.
  induction keys as [|key keys IH]; intros w; cbn [foldl].
  - split; [|done]. exists []. split; [constructor | by rewrite app_nil_r].
  - change (Header w) with (rec_header w).
    destruct (rec_header w !! key) as [values|] eqn:Hl; [|apply IH].
    destruct (addValues_Recorder key values w) as [(cs1 & Hcs1 & Hev1) Hh1].
    destruct (IH (addValues key values w)) as [(cs2 & Hcs2 & Hev2) Hh2].
    split.
    + exists (cs1 ++ cs2). split; [by apply Forall_app|].
      by rewrite Hev2, Hev1, <-app_assoc.
    + by rewrite Hh2, Hh1.
Qed.

Lemma Write_Recorder (b : string) (w : Recorder) :
  rec_events (Write b w).1 = rec_events w ++ [EvWrite b]
  ∧ rec_header (Write b w).1 = rec_header w.
Proof. done. Qed.

(** The capturer's header map is the real writer's. *)
Lemma captured_Header {W} `{ResponseWriter W} (next : Handler) (w : W) (r : Request) :
  Header (captured next w r) = Header (rw_ResponseWriter (captured next w r)).
Proof. done. Qed.

(** What a development-mode request does to a recording writer: while the
    handler runs, changes [hs] of the header map; then the flush: the status
    if it is not 200, the header copies (HTML only), the body. *)
Lemma catchAll_development (next : Handler) (w : Recorder) (r : Request) :
  isDevelopmentMode r = true →
  let wrapper := captured next w r in
  let html := isHTMLResponse (rw_body wrapper) (Header wrapper) in
  ∃ hs copies,
    headerEvents hs ∧ headerEvents copies
    ∧ (html = false → copies = [])
    ∧ rec_events (rw_ResponseWriter wrapper) = rec_events w ++ hs
    ∧ rec_events (catchAll scriptHTML rangeOrder next w r)
      = rec_events w ++ hs ++ flushedStatus (rw_statusCode wrapper) ++ copies
        ++ [EvWrite (if html then injectScript scriptHTML (rw_body wrapper)
                     else rw_body wrapper)]
    ∧ rec_header (catchAll scriptHTML rangeOrder next w r)
      = if html then copyInto (rangeOrder (Header wrapper)) (Header wrapper)
        else Header wrapper.
Proof.
  intros Hdev. unfold catchAll. cbv zeta. rewrite Hdev. cbn [negb].
  change (ServeHTTP next _ r) with (captured next w r).
  set (wrapper := captured next w r).
  destruct (serve_capturer_events (next r)
              {| rw_ResponseWriter := w; rw_body := ""; rw_statusCode := StatusOK |})
    as (hs & Hhs & Hev).
  change (serve (next r) _) with wrapper in Hev.
  change (rec_events (rw_ResponseWriter {| rw_ResponseWriter := w; rw_body := "";
                                           rw_statusCode := StatusOK |}))
    with (rec_events w) in Hev.
  destruct (flushStatus_events (rw_statusCode wrapper) (rw_ResponseWriter wrapper))
    as [Hfe Hfh].
  fold (flushedStatus (rw_statusCode wrapper)) in Hfe.
  destruct (isHTMLResponse (rw_body wrapper) (Header wrapper)); cbn [negb].
  - change (Header (flushStatus (rw_statusCode wrapper) (rw_ResponseWriter wrapper)))
      with (rec_header (flushStatus (rw_statusCode wrapper) (rw_ResponseWriter wrapper))).
    rewrite Hfh. change (rec_header (rw_ResponseWriter wrapper)) with (Header wrapper).
    destruct (copyHeaders_Recorder (rangeOrder (Header wrapper))
                (flushStatus (rw_statusCode wrapper) (rw_ResponseWriter wrapper)))
      as [(copies & Hcopies & Hce) Hch].
    exists hs, copies. repeat split; try done.
    + rewrite (proj1 (Write_Recorder _ _)), Hce, Hfe, Hev.
      by rewrite <-!app_assoc.
    + by rewrite (proj2 (Write_Recorder _ _)), Hch, Hfh.
  - exists hs, []. repeat split; try done.
    + constructor.
    + rewrite (proj1 (Write_Recorder _ _)), Hfe, Hev. by rewrite <-!app_assoc.
Qed.

Lemma Middleware_catchAll {W} `{ResponseWriter W}
      (next : Handler) (fuel : nat) (peer : Peer) (w : W) (r : Request) :
  cleanPath (Path r) = Path r →
  Path r ≠ "/ws/livereload" →
  Middleware next fuel peer w r = Response (catchAll scriptHTML rangeOrder next w r).
Proof.
  intros Hclean Hpath%String.eqb_neq. unfold livereload.Middleware.
  by rewrite Hclean, String.eqb_refl, Hpath.
Qed.

(** C5. In development mode, when the captured response is not classified
    as HTML, the real writer gets, after the header changes the handler made
    meanwhile, the captured status if and only if it is not 200, and then
    the captured body as it is, in one write; nothing else. *)
Theorem Middleware_non_HTML
        (next : Handler) (fuel : nat) (peer : Peer) (w : Recorder) (r : Request) :
  cleanPath (Path r) = Path r →
  Path r ≠ "/ws/livereload" →
  isDevelopmentMode r = true →
  isHTMLResponse (rw_body (captured next w r)) (Header (captured next w r)) = false →
  ∃ w' hs,
    Middleware next fuel peer w r = Response w'
    ∧ headerEvents hs
    ∧ rec_events w'
      = rec_events w ++ hs
        ++ (if (rw_statusCode (captured next w r) =? StatusOK)%Z then []
            else [EvWriteHeader (rw_statusCode (captured next w r))])
        ++ [EvWrite (rw_body (captured next w r))]
    ∧ wireBody (rec_events w')
      = wireBody (rec_events w) +:+ rw_body (captured next w r)
    ∧ rec_header w' = Header (captured next w r).
Proof.
  intros Hclean Hpath Hdev Hhtml.
  destruct (catchAll_development next w r Hdev)
    as (hs & copies & Hhs & _ & Hnil & _ & Hev & Hh).
  rewrite Hhtml in Hev, Hh, Hnil. rewrite (Hnil eq_refl) in Hev.
  eexists _, hs. split; [by apply Middleware_catchAll|].
  split; [done|]. split; [exact Hev|]. split; [|exact Hh].
  rewrite Hev, !wireBody_app, (wireBody_headerEvents hs) by done.
  unfold flushedStatus.
  destruct (rw_statusCode (captured next w r) =? StatusOK)%Z; simpl;
    by rewrite append_nil_r.
Qed.

(** C3, as amended. In development mode the flush starts with the status:
    the code the handler left in the capturer (the last one it set) is
    written with one [WriteHeader], before the header copies and the body,
    when it is not 200; when it is 200, set by the handler or not, the
    dispatcher writes no status at all, and the flush is the header copies
    and the body. *)
Theorem Middleware_flush_order
        (next : Handler) (fuel : nat) (peer : Peer) (w : Recorder) (r : Request) :
  cleanPath (Path r) = Path r →
  Path r ≠ "/ws/livereload" →
  isDevelopmentMode r = true →
  ∃ w' hs copies out,
    Middleware next fuel peer w r = Response w'
    ∧ headerEvents hs ∧ headerEvents copies
    ∧ rec_events (rw_ResponseWriter (captured next w r)) = rec_events w ++ hs
    ∧ (rw_statusCode (captured next w r) ≠ StatusOK →
       rec_events w'
       = rec_events w ++ hs
         ++ EvWriteHeader (rw_statusCode (captured next w r)) :: copies
         ++ [EvWrite out])
    ∧ (rw_statusCode (captured next w r) = StatusOK →
       rec_events w' = rec_events w ++ hs ++ copies ++ [EvWrite out]).
Proof.
  intros Hclean Hpath Hdev.
  destruct (catchAll_development next w r Hdev)
    as (hs & copies & Hhs & Hcopies & _ & Hcap & Hev & _).
  eexists _, hs, copies, _. split; [by apply Middleware_catchAll|].
  split; [done|]. split; [done|]. split; [exact Hcap|].
  rewrite Hev. unfold flushedStatus. split.
  - intros Hne%Z.eqb_neq. by rewrite Hne.
  - intros ->. done.
Qed.


(** ** The notification endpoint *)

Lemma readLoop_reads fuel incoming i n :
  (∀ j, j < n → isReadError (incoming (i + j)) = false) →
  isReadError (incoming (i + n)) = true →
  n < fuel →
  readLoop fuel incoming i
  = Some (ReadMessage <$> (incoming <$> seq i (S n))).
Proof.
  revert i fuel. induction n as [|n IH]; intros i fuel Hok Herr Hfuel.
  - destruct fuel as [|fuel]; [lia|]. simpl.
    rewrite Nat.add_0_r in Herr. by destruct (incoming i).
  - destruct fuel as [|fuel]; [lia|]. cbn [readLoop].
    pose proof (Hok 0 ltac:(lia)) as H0. rewrite Nat.add_0_r in H0.
    destruct (incoming i) as [mt p|err] eqn:Hi; [|done].
    rewrite (IH (S i) fuel).
    + simpl. by rewrite Hi.
    + intros j Hj. replace (S i + j) with (i + S j) by lia. apply Hok. lia.
    + by replace (S i + n) with (i + S n) by lia.
    + lia.
Qed.

Lemma readLoop_forever fuel incoming i :
  (∀ j, isReadError (incoming j) = false) → readLoop fuel incoming i = None.
Proof.
  intros Hok. revert i. induction fuel as [|fuel IH]; intros i; [done|].
  simpl. specialize (Hok i). destruct (incoming i); [|done]. by rewrite IH.
Qed.

Lemma trace_reads (rs : list ReadResult) (t : list Call) :
  reads ((ReadMessage <$> rs) ++ t) = rs ++ reads t.
Proof. induction rs as [|res rs IH]; csimpl; [done | by rewrite IH]. Qed.

Lemma trace_attempted (rs : list ReadResult) (t : list Call) :
  attempted ((ReadMessage <$> rs) ++ t) = attempted t.
Proof. induction rs as [|res rs IH]; csimpl; done. Qed.

Lemma trace_delivered (rs : list ReadResult) (t : list Call) :
  delivered ((ReadMessage <$> rs) ++ t) = delivered t.
Proof. induction rs as [|res rs IH]; csimpl; done. Qed.

(** C8, as amended. After a successful upgrade the server makes one send,
    of the [server-info] payload with the start time, as its first call on
    the connection, and never another. If that send fails, the handler logs,
    closes the connection and returns without reading. If it succeeds, the
    handler reads until the first read that fails, discarding what it
    reads, then closes the connection and returns; and as long as no read
    fails it goes on reading. *)
Theorem handleLiveReload_session (peer : Peer) :
  upgradeErr peer = None →
  (∀ err fuel,
     writeErr peer = Some err →
     handleLiveReload serverStartTime fuel peer
     = Some [Upgrade None; WriteJSON (serverInfo serverStartTime) (Some err);
             LogError "Failed to send server info" err; Close])
  ∧ (∀ n fuel,
       writeErr peer = None →
       (∀ j, j < n → isReadError (incoming peer j) = false) →
       isReadError (incoming peer n) = true →
       n < fuel →
       ∃ t,
         handleLiveReload serverStartTime fuel peer = Some t
         ∧ t = Upgrade None :: WriteJSON (serverInfo serverStartTime) None
               :: (ReadMessage <$> (incoming peer <$> seq 0 (S n))) ++ [Close]
         ∧ attempted t = [serverInfo serverStartTime]
         ∧ delivered t = [serverInfo serverStartTime]
         ∧ reads t = incoming peer <$> seq 0 (S n)
         ∧ last t = Some Close)
  ∧ (∀ fuel,
       writeErr peer = None →
       (∀ j, isReadError (incoming peer j) = false) →
       handleLiveReload serverStartTime fuel peer = None).
Proof.
  intros Hup. unfold handleLiveReload. rewrite Hup. repeat split.
  - intros err fuel ->. done.
  - intros n fuel -> Hok Herr Hfuel.
    rewrite (readLoop_reads fuel (incoming peer) 0 n) by done.
    eexists. split; [reflexivity|]. split; [done|].
    cbn [attempted delivered reads].
    rewrite trace_attempted, trace_delivered, trace_reads. simpl.
    rewrite app_nil_r. repeat split; try done.
    by rewrite !last_cons, last_snoc.
  - intros fuel -> Hok. by rewrite readLoop_forever.
Qed.

End Dispatcher.

(** ** The definitions at work *)

(** The end-to-end scenarios of the specification, run on a fresh recorder. *)
Example scenario_html_localhost :
  Middleware sampleScript sampleStart keysOf htmlHandler 0 closedPeer
             NewRecorder localRequest
  = Response
      {| rec_header := {[ "Content-Type" := ["text/html"; "text/html"] ]};
         rec_events :=
           [EvHeader {[ "Content-Type" := ["text/html"] ]};
            EvHeader {[ "Content-Type" := ["text/html"; "text/html"] ]};
            EvWrite ("<html><head>" +:+ sampleScript +:+ newline
                     +:+ "</head><body>hi</body></html>")] |}.
Proof. vm_compute. reflexivity. Qed.

Example scenario_html_remote :
  Middleware sampleScript sampleStart keysOf htmlHandler 0 closedPeer
             NewRecorder remoteRequest
  = Response
      {| rec_header := {[ "Content-Type" := ["text/html"] ]};
         rec_events :=
           [EvHeader {[ "Content-Type" := ["text/html"] ]};
            EvWriteHeader 200;
            EvWrite htmlBody] |}.
Proof. vm_compute. reflexivity. Qed.

Example scenario_json_404 :
  ∃ w',
    Middleware sampleScript sampleStart keysOf notFoundHandler 0 closedPeer
               NewRecorder {| Host := "localhost"; Path := "/api" |}
    = Response w'
    ∧ rec_events w'
      = [EvHeader {[ "Content-Type" := ["application/json"] ]};
         EvWriteHeader 404;
         EvWrite jsonBody]
    ∧ wireStatus (rec_events w') = Some 404%Z
    ∧ wireBody (rec_events w') = jsonBody.
Proof. eexists. split; [reflexivity|]. repeat split; vm_compute; reflexivity. Qed.



(** C5, witness: the 404 handler behind the host [localhost]. *)
Lemma Middleware_non_HTML_witness :
  let r := {| Host := "localhost"; Path := "/api" |} in
  let wrapper := captured notFoundHandler NewRecorder r in
  cleanPath (Path r) = Path r
  ∧ Path r ≠ "/ws/livereload"
  ∧ isDevelopmentMode r = true
  ∧ isHTMLResponse (rw_body wrapper) (Header wrapper) = false
  ∧ ∃ w' hs,
      Middleware sampleScript sampleStart keysOf notFoundHandler 0 closedPeer
                 NewRecorder r = Response w'
      ∧ headerEvents hs
      ∧ rec_events w'
        = rec_events NewRecorder ++ hs
          ++ (if (rw_statusCode wrapper =? StatusOK)%Z then []
              else [EvWriteHeader (rw_statusCode wrapper)])
          ++ [EvWrite (rw_body wrapper)]
      ∧ wireBody (rec_events w')
        = wireBody (rec_events NewRecorder) +:+ rw_body wrapper
      ∧ rec_header w' = Header wrapper.
Proof.
  cbv zeta. split; [reflexivity|]. split; [discriminate|]. split; [reflexivity|]. split; [reflexivity|].
  apply Middleware_non_HTML; [reflexivity | discriminate | reflexivity | reflexivity].
Defined.

(** C3, counterexample to the claim as it was stated: the handler sets the
    status 200 itself; the real writer gets no [WriteHeader] at all, and the
    flush starts with a change of the header map, followed by the body. *)
Lemma Middleware_explicit_200_not_written :
  rw_statusCode (captured htmlHandler NewRecorder localRequest) = 200%Z
  ∧ ∃ w',
      Middleware sampleScript sampleStart keysOf htmlHandler 0 closedPeer
                 NewRecorder localRequest = Response w'
      ∧ rec_events (rw_ResponseWriter (captured htmlHandler NewRecorder localRequest))
        = [EvHeader {[ "Content-Type" := ["text/html"] ]}]
      ∧ rec_events w'
        = [EvHeader {[ "Content-Type" := ["text/html"] ]};
           EvHeader {[ "Content-Type" := ["text/html"; "text/html"] ]};
           EvWrite ("<html><head>" +:+ sampleScript +:+ newline
                    +:+ "</head><body>hi</body></html>")]
      ∧ filter (λ e, isStatusEvent e = true) (rec_events w') = [].
Proof.
  split; [reflexivity|]. eexists. split; [apply scenario_html_localhost|].
  repeat split; vm_compute; reflexivity.
Qed.

(** C3, witness: the 404 handler, whose status opens the flush. *)
Lemma Middleware_flush_order_witness :
  let r := {| Host := "localhost"; Path := "/api" |} in
  let wrapper := captured notFoundHandler NewRecorder r in
  cleanPath (Path r) = Path r
  ∧ Path r ≠ "/ws/livereload"
  ∧ isDevelopmentMode r = true
  ∧ ∃ w' hs copies out,
      Middleware sampleScript sampleStart keysOf notFoundHandler 0 closedPeer
                 NewRecorder r = Response w'
      ∧ headerEvents hs ∧ headerEvents copies
      ∧ rec_events (rw_ResponseWriter wrapper) = rec_events NewRecorder ++ hs
      ∧ (rw_statusCode wrapper ≠ StatusOK →
         rec_events w'
         = rec_events NewRecorder ++ hs
           ++ EvWriteHeader (rw_statusCode wrapper) :: copies ++ [EvWrite out])
      ∧ (rw_statusCode wrapper = StatusOK →
         rec_events w' = rec_events NewRecorder ++ hs ++ copies ++ [EvWrite out]).
Proof.
  cbv zeta. split; [reflexivity|]. split; [discriminate|]. split; [reflexivity|].
  apply Middleware_flush_order; [reflexivity | discriminate | reflexivity].
Defined.



(** C8, counterexample to the claim as it was stated: the upgrade succeeds,
    the send fails; no message reaches the client and, with messages
    waiting, none is read before the connection is closed. *)
Lemma handleLiveReload_failed_send_reads_nothing :
  upgradeErr unreachablePeer = None
  ∧ incoming unreachablePeer 0 = Message 1 "ping"
  ∧ handleLiveReload sampleStart 10 unreachablePeer
    = Some [Upgrade None;
            WriteJSON (serverInfo sampleStart) (Some "broken pipe");
            LogError "Failed to send server info" "broken pipe"; Close]
  ∧ delivered [Upgrade None;
               WriteJSON (serverInfo sampleStart) (Some "broken pipe");
               LogError "Failed to send server info" "broken pipe"; Close] = []
  ∧ reads [Upgrade None;
           WriteJSON (serverInfo sampleStart) (Some "broken pipe");
           LogError "Failed to send server info" "broken pipe"; Close] = [].
Proof. repeat split. Qed.

(** C8, witness: a peer that sends two messages and then goes away. *)
Lemma handleLiveReload_session_witness :
  upgradeErr chattyPeer = None
  ∧ ∃ t,
      handleLiveReload sampleStart 5 chattyPeer = Some t
      ∧ attempted t = [serverInfo sampleStart]
      ∧ delivered t = [serverInfo sampleStart]
      ∧ reads t = [Message 1 "ping"; Message 1 "ping"; ReadError "going away"]
      ∧ last t = Some Close.
Proof.
  split; [reflexivity|].
  destruct (proj1 (proj2 (handleLiveReload_session sampleStart chattyPeer eq_refl))
              2 5 eq_refl) as (t & Ht & _ & Ha & Hd & Hr & Hl).
  - intros [|[|j]] Hj; [reflexivity | reflexivity | lia].
  - reflexivity.
  - lia.
  - exists t. repeat split; assumption.
Defined.

(* ===================================================================== *)
(** * Further properties *)
(* ===================================================================== *)

(** ** The classifiers *)

Lemma ToLower_append s t : ToLower (s +:+ t) = ToLower s +:+ ToLower t.
Proof. induction s as [|c s IH]; simpl; [done | by rewrite IH]. Qed.

Lemma occurs_embedded sub s pre post :
  occurs sub s → occurs sub (pre +:+ s +:+ post).
Proof.
  intros (a & b & ->). exists (pre +:+ a), (b +:+ post).
  by rewrite !append_assoc.
Qed.

Lemma Contains_embedded sub s pre post :
  Contains s sub = true → Contains (pre +:+ s +:+ post) sub = true.
Proof. rewrite !Contains_occurs. apply occurs_embedded. Qed.

Lemma looksLikeHTML_embedded s pre post :
  looksLikeHTML s = true → looksLikeHTML (pre +:+ s +:+ post) = true.
Proof.
  rewrite !looksLikeHTML_occurs.
  intros [H|[H|[H|[H1 H2]]]].
  - left. by apply occurs_embedded.
  - right; left. by apply occurs_embedded.
  - right; right; left. by apply occurs_embedded.
  - right; right; right. split; by apply occurs_embedded.
Qed.

(** X1. The two [HasPrefix] tests of [isDevelopmentMode] never decide: the
    result is that of the two [Contains] tests. So a host is a development
    host as soon as one occurs anywhere inside it, whatever stands around
    it. *)
Theorem isDevelopmentMode_contains :
  (∀ r : Request,
     isDevelopmentMode r
     = Contains (Host r) "localhost" || Contains (Host r) "127.0.0.1")
  ∧ (∀ (r : Request) (pre post path : string),
       isDevelopmentMode r = true →
       isDevelopmentMode {| Host := pre +:+ Host r +:+ post; Path := path |} = true).
Proof.
  assert (∀ r : Request,
            isDevelopmentMode r
            = Contains (Host r) "localhost" || Contains (Host r) "127.0.0.1") as Heq.
  { intros r. unfold isDevelopmentMode.
    destruct (Contains (Host r) "localhost") eqn:Hl; [done|].
    destruct (Contains (Host r) "127.0.0.1") eqn:Hi; [done|]. cbn [orb].
    destruct (HasPrefix (Host r) "localhost:") eqn:Hpl.
    { apply HasPrefix_begins, (begins_with_append "localhost" ":"),
        begins_with_occurs, Contains_occurs in Hpl. congruence. }
    destruct (HasPrefix (Host r) "127.0.0.1:") eqn:Hpi; [|done].
    apply HasPrefix_begins, (begins_with_append "127.0.0.1" ":"),
      begins_with_occurs, Contains_occurs in Hpi. congruence. }
  split; [exact Heq|].
  intros r pre post path. rewrite !Heq. cbn [Host].
  intros [H|H]%orb_true_iff; apply orb_true_iff;
    [left | right]; by apply Contains_embedded.
Qed.

(** X1, witness: a development host inside a longer name. *)
Lemma isDevelopmentMode_contains_witness :
  isDevelopmentMode localRequest = true
  ∧ isDevelopmentMode
      {| Host := "not-" +:+ Host localRequest +:+ ".example.com"; Path := "/x" |}
    = true.
Proof.
  split; [reflexivity|].
  apply (proj2 isDevelopmentMode_contains localRequest). reflexivity.
Defined.

(** X2. A body that is classified as HTML stays so when anything is put
    before and after it: the marks count wherever they stand in the body,
    in a JSON string as well as at the head of a document. *)
Theorem isHTMLResponse_embedded_body (body pre post : string) (headers : header) :
  isHTMLResponse body headers = true →
  isHTMLResponse (pre +:+ body +:+ post) headers = true.
Proof.
  unfold isHTMLResponse.
  destruct (Contains (HeaderGet headers "Content-Type") "text/html"); [done|].
  rewrite !ToLower_append. apply looksLikeHTML_embedded.
Qed.

(** X2, witness: an HTML fragment inside a JSON text, under a JSON type. *)
Lemma isHTMLResponse_embedded_body_witness :
  isHTMLResponse "<HTML>" jsonHeaders = true
  ∧ isHTMLResponse ("{'page': '" +:+ "<HTML>" +:+ "'}") jsonHeaders = true.
Proof.
  split; [reflexivity|].
  apply isHTMLResponse_embedded_body. reflexivity.
Defined.

(** X3. Of the headers, [isHTMLResponse] reads the first value stored under
    the key [Content-Type] and nothing else: with no such key, or an empty
    value list, the body decides; further values of the key, and all other
    keys (a [content-type] in another spelling among them), change
    nothing. *)
Theorem isHTMLResponse_first_value (body : string) (headers : header) :
  isHTMLResponse body headers
  = match headers !! "Content-Type" with
    | Some (v :: _) => Contains v "text/html" || looksLikeHTML (ToLower body)
    | _ => looksLikeHTML (ToLower body)
    end
  ∧ (∀ key values,
       key ≠ "Content-Type" →
       isHTMLResponse body (<[key := values]> headers)
       = isHTMLResponse body headers
       ∧ isHTMLResponse body (delete key headers)
         = isHTMLResponse body headers)
  ∧ (∀ v values,
       isHTMLResponse body (<["Content-Type" := v :: values]> headers)
       = Contains v "text/html" || looksLikeHTML (ToLower body)).
Proof.
  assert (∀ h : header,
            isHTMLResponse body h
            = match h !! "Content-Type" with
              | Some (v :: _) => Contains v "text/html" || looksLikeHTML (ToLower body)
              | _ => looksLikeHTML (ToLower body)
              end) as Heq.
  { intros h. unfold isHTMLResponse, HeaderGet.
    change (CanonicalMIMEHeaderKey "Content-Type") with "Content-Type".
    by destruct (h !! "Content-Type") as [[|v vs]|]. }
  split; [apply Heq|]. split.
  - intros key values Hne.
    by rewrite !Heq, lookup_insert_ne, lookup_delete_ne.
  - intros v values. by rewrite Heq, lookup_insert_eq.
Qed.

(** ** [injectScript] *)

Section InjectScriptFurther.
Variable scriptHTML : string.

Lemma injectScript_length (body : string) :
  String.length (injectScript scriptHTML body)
  = String.length body + String.length scriptHTML
    + (if hasMarker body then 1 else 0).
Proof.
  unfold injectScript, hasMarker.
  destruct (Contains body "</head>") eqn:Hh; cbn [orb].
  { by apply Replace_marker_length. }
  destruct (Contains body "</body>") eqn:Hb; cbn [orb].
  { by apply Replace_marker_length. }
  destruct (Contains body "</html>") eqn:Ht; cbn [orb].
  { by apply Replace_marker_length. }
  rewrite length_append. lia.
Qed.

Lemma Replace_marker_occurs body marker :
  Contains body marker = true →
  Contains (Replace body marker (scriptHTML +:+ newline +:+ marker) 1) marker = true
  ∧ occurs scriptHTML (Replace body marker (scriptHTML +:+ newline +:+ marker) 1).
Proof.
  intros (pre & post & _ & ->)%(Replace_marker scriptHTML). split.
  - apply Contains_occurs. exists (pre +:+ scriptHTML +:+ newline), post.
    by rewrite !append_assoc.
  - by exists pre, (newline +:+ marker +:+ post).
Qed.

Lemma injectScript_occurs (body : string) :
  occurs scriptHTML (injectScript scriptHTML body)
  ∧ (hasMarker body = true → hasMarker (injectScript scriptHTML body) = true).
Proof.
  unfold injectScript, hasMarker.
  destruct (Contains body "</head>") eqn:Hh; cbn [orb].
  { destruct (Replace_marker_occurs _ _ Hh) as [Hc Ho].
    split; [exact Ho | intros _].
    apply orb_true_iff; left; apply orb_true_iff; left; exact Hc. }
  destruct (Contains body "</body>") eqn:Hb; cbn [orb].
  { destruct (Replace_marker_occurs _ _ Hb) as [Hc Ho].
    split; [exact Ho | intros _].
    apply orb_true_iff; left; apply orb_true_iff; right; exact Hc. }
  destruct (Contains body "</html>") eqn:Ht; cbn [orb].
  { destruct (Replace_marker_occurs _ _ Ht) as [Hc Ho].
    split; [exact Ho | intros _].
    apply orb_true_iff; right; exact Hc. }
  split; [|done]. exists body, "". by rewrite append_nil_r.
Qed.

(** X4. [injectScript] does not look for a snippet that is already there:
    its output contains the snippet, still has a marker when the body had
    one, and goes through [injectScript] again like any body, growing by
    the snippet (and a newline) once more. *)
Theorem injectScript_twice (body : string) :
  occurs scriptHTML (injectScript scriptHTML body)
  ∧ String.length body + 2 * String.length scriptHTML
    ≤ String.length (injectScript scriptHTML (injectScript scriptHTML body))
  ∧ (hasMarker body = true →
     hasMarker (injectScript scriptHTML body) = true
     ∧ String.length (injectScript scriptHTML (injectScript scriptHTML body))
       = String.length body + 2 * (String.length scriptHTML + 1)).
Proof.
  destruct (injectScript_occurs body) as [Hocc Hmark].
  split; [exact Hocc|]. split.
  - rewrite !injectScript_length. lia.
  - intros Hm. split; [by apply Hmark|].
    rewrite !injectScript_length, Hm, (Hmark Hm). lia.
Qed.

End InjectScriptFurther.

(** X4, witness: a document through [injectScript] twice. *)
Lemma injectScript_twice_witness :
  hasMarker htmlBody = true
  ∧ hasMarker (injectScript sampleScript htmlBody) = true
  ∧ String.length (injectScript sampleScript (injectScript sampleScript htmlBody))
    = String.length htmlBody + 2 * (String.length sampleScript + 1).
Proof.
  split; [reflexivity|].
  exact (proj2 (proj2 (injectScript_twice sampleScript htmlBody)) eq_refl).
Defined.

(** ** The capturer *)

(** X5. What a handler without branches leaves in the capturer, for every
    real writer: the buffer grown by the bytes of its [Write] calls in
    order, the code of its last [WriteHeader] call (the one that was there
    when it made none), and a real writer that received its header changes,
    in order, and nothing else. *)
Theorem capturer_straight_line {W} `{ResponseWriter W}
        (ops : list Op) (rw : responseWriter W) :
  rw_body (serve (straight ops) rw) = rw_body rw +:+ written ops
  ∧ rw_statusCode (serve (straight ops) rw) = lastStatus (rw_statusCode rw) ops
  ∧ rw_ResponseWriter (serve (straight ops) rw)
    = foldl (λ w f, withHeader f w) (rw_ResponseWriter rw) (headerChanges ops).
Proof.
  revert rw. induction ops as [|[b|code|f] ops IH]; intros rw.
  - repeat split. cbn. by rewrite append_nil_r.
  - destruct (IH (responseWriter_Write b rw).1) as (Hb & Hs & Hw).
    repeat split; [|exact Hs|exact Hw].
    cbn [straight serve written]. etrans; [exact Hb|].
    cbn. by rewrite append_assoc.
  - destruct (IH (responseWriter_WriteHeader code rw)) as (Hb & Hs & Hw).
    repeat split; [exact Hb|exact Hs|exact Hw].
  - destruct (IH (responseWriter_withHeader f rw)) as (Hb & Hs & Hw).
    repeat split; [exact Hb|exact Hs|exact Hw].
Qed.

(** A handler sees the same things through the capturer and directly on a
    recording writer: the results of [Write] and the header map. So the two
    runs go the same way. *)
Lemma serve_in_step (c : Calls) (w : Recorder) (rw : responseWriter Recorder) :
  rec_header (rw_ResponseWriter rw) = rec_header w →
  ∃ d, rw_body (serve c rw) = rw_body rw +:+ d
       ∧ wireBody (rec_events (serve c w)) = wireBody (rec_events w) +:+ d
       ∧ rec_header (rw_ResponseWriter (serve c rw)) = rec_header (serve c w).
Proof.
  revert w rw. induction c as [|b k IH|code k IH|k IH|f k IH]; intros w rw Hh.
  - exists "". by rewrite !append_nil_r.
  - destruct (IH (Z.of_nat (String.length b), None)
                (@Write Recorder _ b w).1 (responseWriter_Write b rw).1)
      as (d & Hb & Hw & Hhd); [exact Hh|].
    exists (b +:+ d). split; [|split; [|exact Hhd]].
    + etrans; [exact Hb|]. cbn. by rewrite append_assoc.
    + etrans; [exact Hw|].
      change (rec_events (@Write Recorder _ b w).1)
        with (rec_events w ++ [EvWrite b]).
      rewrite wireBody_app. cbn [wireBody].
      by rewrite append_nil_r, append_assoc.
  - destruct (IH (@WriteHeader Recorder _ code w) (responseWriter_WriteHeader code rw))
      as (d & Hb & Hw & Hhd); [exact Hh|].
    exists d. split; [exact Hb|]. split; [|exact Hhd].
    etrans; [exact Hw|].
    change (rec_events (@WriteHeader Recorder _ code w))
      with (rec_events w ++ [EvWriteHeader code]).
    rewrite wireBody_app. cbn [wireBody]. by rewrite append_nil_r.
  - cbn [serve]. change (Header rw) with (rec_header (rw_ResponseWriter rw)).
    change (Header w) with (rec_header w). rewrite Hh. by apply IH.
  - destruct (IH (@withHeader Recorder _ f w) (responseWriter_withHeader f rw))
      as (d & Hb & Hw & Hhd).
    { cbn. by rewrite Hh. }
    exists d. split; [exact Hb|]. split; [|exact Hhd].
    etrans; [exact Hw|].
    change (rec_events (@withHeader Recorder _ f w))
      with (rec_events w ++ [EvHeader (f (rec_header w))]).
    rewrite wireBody_app. cbn [wireBody]. by rewrite append_nil_r.
Qed.

(** ** The dispatcher *)

Section DispatcherFurther.
Variable scriptHTML : string.
Variable serverStartTime : Z.
Variable rangeOrder : header → list string.

#[local] Abbreviation Middleware :=
  (livereload.Middleware scriptHTML serverStartTime rangeOrder).

(** X6. In development mode, for a request that the mux hands to the
    handler on ["/"] (a path in clean form, other than the websocket
    route), the real writer gets one [Write], and only one, whatever the
    number of writes of the handler (none included): the
    whole captured body, with the script put in when the response is
    classified as HTML. *)
Theorem Middleware_single_write
        (next : Handler) (fuel : nat) (peer : Peer) (w : Recorder) (r : Request) :
  cleanPath (Path r) = Path r →
  Path r ≠ "/ws/livereload" →
  isDevelopmentMode r = true →
  ∃ w' out,
    Middleware next fuel peer w r = Response w'
    ∧ out = (if isHTMLResponse (rw_body (captured next w r))
                               (Header (captured next w r))
             then injectScript scriptHTML (rw_body (captured next w r))
             else rw_body (captured next w r))
    ∧ filter (λ e, isWriteEvent e = true) (rec_events w')
      = filter (λ e, isWriteEvent e = true) (rec_events w) ++ [EvWrite out]
    ∧ wireBody (rec_events w') = wireBody (rec_events w) +:+ out.
Proof.
  intros Hclean Hpath Hdev.
  destruct (catchAll_development scriptHTML rangeOrder next w r Hdev)
    as (hs & copies & Hhs & Hcopies & _ & _ & Hev & _).
  assert (∀ evs, headerEvents evs → filter (λ e, isWriteEvent e = true) evs = [])
    as Hnowrite.
  { induction 1 as [|[h|c|b] evs He _ IH]; try done. }
  eexists _, _. split; [by apply Middleware_catchAll|]. split; [reflexivity|].
  rewrite Hev. unfold flushedStatus. split.
  - rewrite !filter_app, (Hnowrite hs), (Hnowrite copies) by done.
    by destruct (rw_statusCode (captured next w r) =? StatusOK)%Z.
  - rewrite !wireBody_app, (wireBody_headerEvents hs),
      (wireBody_headerEvents copies) by done.
    destruct (rw_statusCode (captured next w r) =? StatusOK)%Z; cbn;
      by rewrite !append_nil_r.
Qed.

(** X7. For a response that is not classified as HTML, development mode
    ends with the body bytes and the header map that serving the handler
    directly on the same writer gives: the capturer collects the very bytes
    the handler would have written, and the header changes go through. *)
Theorem development_non_HTML_as_direct
        (next : Handler) (fuel : nat) (peer : Peer) (w : Recorder) (r : Request) :
  cleanPath (Path r) = Path r →
  Path r ≠ "/ws/livereload" →
  isDevelopmentMode r = true →
  isHTMLResponse (rw_body (captured next w r)) (Header (captured next w r)) = false →
  wireBody (rec_events (ServeHTTP next w r))
  = wireBody (rec_events w) +:+ rw_body (captured next w r)
  ∧ ∃ w',
      Middleware next fuel peer w r = Response w'
      ∧ wireBody (rec_events w') = wireBody (rec_events (ServeHTTP next w r))
      ∧ rec_header w' = rec_header (ServeHTTP next w r).
Proof.
  intros Hclean Hpath Hdev Hhtml.
  destruct (serve_in_step (next r) w
              {| rw_ResponseWriter := w; rw_body := ""; rw_statusCode := StatusOK |}
              eq_refl) as (d & Hb & Hw & Hh).
  change (serve (next r) {| rw_ResponseWriter := w; rw_body := "";
                            rw_statusCode := StatusOK |})
    with (captured next w r) in Hb, Hh.
  change (serve (next r) w) with (ServeHTTP next w r) in Hw, Hh.
  cbn in Hb. subst d. split; [exact Hw|].
  destruct (catchAll_development scriptHTML rangeOrder next w r Hdev)
    as (hs & copies & Hhs & _ & Hnil & _ & Hev & Hhdr).
  rewrite Hhtml in Hev, Hhdr, Hnil. rewrite (Hnil eq_refl) in Hev.
  eexists. split; [by apply Middleware_catchAll|]. split.
  - rewrite Hev, Hw, !wireBody_app, (wireBody_headerEvents hs) by done.
    unfold flushedStatus.
    destruct (rw_statusCode (captured next w r) =? StatusOK)%Z; cbn;
      by rewrite !append_nil_r.
  - rewrite Hhdr. exact Hh.
Qed.

(** ** The notification endpoint *)

Lemma readLoop_S fuel incoming i :
  readLoop (S fuel) incoming i
  = match incoming i with
    | ReadError err => Some [ReadMessage (ReadError err)]
    | Message mt p =>
        t ← readLoop fuel incoming (S i);
        Some (ReadMessage (Message mt p) :: t)
    end.
Proof. done. Qed.

Lemma readLoop_returns_error fuel incoming i t :
  readLoop fuel incoming i = Some t →
  ∃ n, isReadError (incoming (i + n)) = true.
Proof.
  revert i t. induction fuel as [|fuel IH]; intros i t; [done|].
  rewrite readLoop_S.
  destruct (incoming i) as [mt p|err] eqn:Hi.
  - destruct (readLoop fuel incoming (S i)) as [t'|] eqn:Hr; [|done].
    intros _. destruct (IH _ _ Hr) as [n Hn].
    exists (S n). by replace (i + S n) with (S i + n) by lia.
  - intros _. exists 0. by rewrite Nat.add_0_r, Hi.
Qed.

Lemma readLoop_error_returns incoming i n :
  isReadError (incoming (i + n)) = true →
  ∃ t, readLoop (S n) incoming i = Some t.
Proof.
  revert i. induction n as [|n IH]; intros i Herr; rewrite readLoop_S.
  - rewrite Nat.add_0_r in Herr. destruct (incoming i); [done | by eexists].
  - destruct (incoming i) as [mt p|err]; [|by eexists].
    destruct (IH (S i)) as [t Ht].
    { by replace (S i + n) with (i + S n) by lia. }
    rewrite Ht. by eexists.
Qed.

Lemma readLoop_more_fuel fuel fuel' incoming i t :
  readLoop fuel incoming i = Some t → fuel ≤ fuel' →
  readLoop fuel' incoming i = Some t.
Proof.
  revert fuel' i t. induction fuel as [|fuel IH]; intros fuel' i t; [done|].
  destruct fuel' as [|fuel']; [lia|]. rewrite !readLoop_S.
  destruct (incoming i) as [mt p|err]; [|done].
  destruct (readLoop fuel incoming (S i)) as [t'|] eqn:Hr; [|done].
  intros Ht Hle. by rewrite (IH fuel' _ _ Hr) by lia.
Qed.

(** X9. [handleLiveReload] returns exactly when the upgrade fails, or the
    send fails, or some read fails; otherwise it holds the connection for
    ever. What it did when it returns is settled by the peer: a longer
    run gives the same calls. *)
Theorem handleLiveReload_returns (peer : Peer) :
  ((∃ fuel t, handleLiveReload serverStartTime fuel peer = Some t) ↔
   upgradeErr peer ≠ None ∨ writeErr peer ≠ None
   ∨ ∃ n, isReadError (incoming peer n) = true)
  ∧ (∀ fuel fuel' t,
       handleLiveReload serverStartTime fuel peer = Some t →
       fuel ≤ fuel' →
       handleLiveReload serverStartTime fuel' peer = Some t).
Proof.
  unfold handleLiveReload. split; [split|].
  - intros (fuel & t & Ht).
    destruct (upgradeErr peer); [by left|].
    destruct (writeErr peer); [by right; left|]. right; right.
    destruct (readLoop fuel (incoming peer) 0) as [t'|] eqn:Hr; [|done].
    apply readLoop_returns_error in Hr as [n Hn]. by exists n.
  - intros Hcases.
    destruct (upgradeErr peer) as [err|]; [by exists 0; eexists|].
    destruct (writeErr peer) as [err|]; [by exists 0; eexists|].
    destruct Hcases as [?|[?|[n Hn]]]; [done|done|].
    destruct (readLoop_error_returns (incoming peer) 0 n Hn) as [t Ht].
    exists (S n). rewrite Ht. by eexists.
  - intros fuel fuel' t.
    destruct (upgradeErr peer); [done|]. destruct (writeErr peer); [done|].
    destruct (readLoop fuel (incoming peer) 0) as [t'|] eqn:Hr; [|done].
    intros Ht Hle. by rewrite (readLoop_more_fuel _ _ _ _ _ Hr Hle).
Qed.

End DispatcherFurther.

(** ** The further properties at work *)

Example capturer_piecewise :
  rw_body (captured (λ _, straight piecewiseOps) NewRecorder localRequest)
  = "<html><head></head></html>"
  ∧ rw_statusCode (captured (λ _, straight piecewiseOps) NewRecorder localRequest)
    = 500%Z
  ∧ rec_events
      (rw_ResponseWriter
         (captured (λ _, straight piecewiseOps) NewRecorder localRequest))
    = [EvHeader {[ "Content-Type" := ["text/html"] ]}].
Proof. repeat split; vm_compute; reflexivity. Qed.

(** X6, witness: the handler that writes in three pieces, behind
    [localhost]. *)
Lemma Middleware_single_write_witness :
  let next : Handler := λ _, straight piecewiseOps in
  cleanPath (Path localRequest) = Path localRequest
  ∧ Path localRequest ≠ "/ws/livereload"
  ∧ isDevelopmentMode localRequest = true
  ∧ ∃ w' out,
      Middleware sampleScript sampleStart keysOf next 0 closedPeer
                 NewRecorder localRequest = Response w'
      ∧ out = (if isHTMLResponse (rw_body (captured next NewRecorder localRequest))
                                 (Header (captured next NewRecorder localRequest))
               then injectScript sampleScript
                      (rw_body (captured next NewRecorder localRequest))
               else rw_body (captured next NewRecorder localRequest))
      ∧ filter (λ e, isWriteEvent e = true) (rec_events w')
        = filter (λ e, isWriteEvent e = true) (rec_events NewRecorder)
          ++ [EvWrite out]
      ∧ wireBody (rec_events w') = wireBody (rec_events NewRecorder) +:+ out.
Proof.
  cbv zeta. split; [reflexivity|]. split; [discriminate|]. split; [reflexivity|].
  apply Middleware_single_write; [reflexivity | discriminate | reflexivity].
Defined.

(** X7, witness: the 404 handler behind [localhost]. *)
Lemma development_non_HTML_as_direct_witness :
  let r := {| Host := "localhost"; Path := "/api" |} in
  cleanPath (Path r) = Path r
  ∧ Path r ≠ "/ws/livereload"
  ∧ isDevelopmentMode r = true
  ∧ isHTMLResponse (rw_body (captured notFoundHandler NewRecorder r))
                   (Header (captured notFoundHandler NewRecorder r)) = false
  ∧ wireBody (rec_events (ServeHTTP notFoundHandler NewRecorder r))
    = wireBody (rec_events NewRecorder)
      +:+ rw_body (captured notFoundHandler NewRecorder r)
  ∧ ∃ w',
      Middleware sampleScript sampleStart keysOf notFoundHandler 0 closedPeer
                 NewRecorder r = Response w'
      ∧ wireBody (rec_events w')
        = wireBody (rec_events (ServeHTTP notFoundHandler NewRecorder r))
      ∧ rec_header w' = rec_header (ServeHTTP notFoundHandler NewRecorder r).
Proof.
  cbv zeta. split; [reflexivity|]. split; [discriminate|]. split; [reflexivity|]. split; [reflexivity|].
  apply (development_non_HTML_as_direct sampleScript sampleStart keysOf);
    [reflexivity | discriminate | reflexivity | reflexivity].
Defined.

